(** * CareerCast: the dashboard plan gate and the script page

    A shallow embedding of the page logic of [src/pages/Dashboard.tsx] and
    [src/pages/Step3.tsx]: the premium-plan flag, the new-submission gate,
    the table row's "View" action, the prompt builder, the generate action,
    the mount effect, the start-recording action and the text-change
    handler.

    React state is a record, one field per [useState] cell; a handler is a
    function from the state before the event to the state after it (every
    setter call of one handler run is applied).  What a handler does to the
    outside world is recorded in the state as well: [localStorage] is a
    finite map, and navigations, toasts, storage writes and calls of the
    remote function are appended to a log in the order they happen. *)

From Stdlib Require Import ZArith Ascii String.
From stdpp Require Import gmap strings list fin_maps.

Local Open Scope nat_scope.

(** ** JavaScript values and strings *)

Module JS.

(** A JavaScript string is a sequence of UTF-16 code units.  [length],
    [slice] and [includes] all count code units. *)
Abbreviation jsstring := (list N).

(** A string literal of the source (the literals used are ASCII). *)
Definition lit (s : string) : jsstring :=
  N_of_ascii <$> list_ascii_of_string s.

(** The primitive values the modelled expressions range over. *)
Inductive value : Type :=
| Undefined
| Null
| Bool (b : bool)
| Str (s : jsstring).

#[global] Instance value_eq_dec : EqDecision value.
Proof. solve_decision. Defined.

(** ToBoolean. *)
Definition truthy (v : value) : bool :=
  match v with
  | Undefined | Null => false
  | Bool b => b
  | Str s => negb (bool_decide (s = []))
  end.

(** [a && b] and [a || b]: the result is one of the operands. *)
Definition and_ (a b : value) : value := if truthy a then b else a.
Definition or_ (a b : value) : value := if truthy a then a else b.

(** [a === b] on primitives. *)
Definition strict_eq (a b : value) : bool := bool_decide (a = b).

(** A nullable text column of a row, or the result of
    [localStorage.getItem]: [null] or a string. *)
Definition of_nullable (o : option jsstring) : value :=
  match o with
  | None => Null
  | Some s => Str s
  end.

(** [s.slice(0, n)]. *)
Definition slice0 (n : nat) (s : jsstring) : jsstring := take n s.

(** [s.startsWith(sub)], the inner loop of [includes]. *)
Fixpoint starts_with (sub s : jsstring) : bool :=
  match sub, s with
  | [], _ => true
  | _ :: _, [] => false
  | a :: sub', b :: s' => bool_decide (a = b) && starts_with sub' s'
  end.

(** [s.includes(sub)]. *)
Fixpoint includes (s sub : jsstring) : bool :=
  starts_with sub s ||
  match s with
  | [] => false
  | _ :: s' => includes s' sub
  end.

(** [sub] occurs in [s] as a contiguous run of code units. *)
Definition substring_of (sub s : jsstring) : Prop :=
  ∃ pre post, s = pre ++ sub ++ post.

(** A thrown value, as far as a [catch] block of the source looks at it:
    its [message] property. *)
Record exn : Type := Exn { message : value }.

(** [new Error(msg)] for a string [msg]. *)
Definition Error (msg : jsstring) : exn := Exn (Str msg).

(** The outcome of a [try] block: it ran to its end, or it threw. *)
Inductive completion (A : Type) : Type :=
| Normal (a : A)
| Throw (e : exn).
Arguments Normal {A} a.
Arguments Throw {A} e.

#[global] Instance completion_ret : MRet completion := λ A a, Normal a.

#[global] Instance completion_bind : MBind completion := λ A B k c,
  match c with
  | Normal a => k a
  | Throw e => Throw e
  end.

End JS.

Import JS.

(** ** The dashboard *)

Module Dashboard.

(** A row of [profiles] as selected by [fetchPlan]; the same three
    columns are read from [payload.new] by the realtime handler.  The
    columns are nullable text and timestamp columns: a value is [null]
    or a string. *)
Record profile : Type := Profile {
  plan_tier : option jsstring;
  plan_status : option jsstring;
  plan_renews_at : option jsstring
}.

(** A row of [recordings] as selected by [fetchCareerCasts]. *)
Record recording : Type := Recording {
  storage_path : option jsstring
}.

(** A row of [job_requests] joined with its recordings.  [recordings] is
    [None] when the property is [null] or missing. *)
Record cast : Type := Cast {
  id : jsstring;
  job_title : option jsstring;
  resume_path : option jsstring;
  status : option jsstring;
  created_at : option jsstring;
  recordings : option (list recording)
}.

(** The component's state cells, and the log of [navigate] calls. *)
Record state : Type := State {
  careerCasts : list cast;
  loading : bool;
  selectedVideo : option jsstring;
  showPricingPopup : bool;
  isPremiumActive : value;
  planRenewsAt : value;
  navigations : list jsstring
}.

Definition set_isPremiumActive (v : value) (st : state) : state :=
  State (careerCasts st) (loading st) (selectedVideo st)
        (showPricingPopup st) v (planRenewsAt st) (navigations st).

Definition set_planRenewsAt (v : value) (st : state) : state :=
  State (careerCasts st) (loading st) (selectedVideo st)
        (showPricingPopup st) (isPremiumActive st) v (navigations st).

Definition set_showPricingPopup (b : bool) (st : state) : state :=
  State (careerCasts st) (loading st) (selectedVideo st)
        b (isPremiumActive st) (planRenewsAt st) (navigations st).

Definition navigate (path : jsstring) (st : state) : state :=
  State (careerCasts st) (loading st) (selectedVideo st)
        (showPricingPopup st) (isPremiumActive st) (planRenewsAt st)
        (navigations st ++ [path]).

(** What [await supabase.from('profiles')...single()] yields: the promise
    rejects, or it resolves to [{ data, error }]. *)
Inductive query_result : Type :=
| Rejected (e : exn)
| Resolved (data : option profile) (error : option exn).

Section WithClock.

(** The platform's date parser: the time value of [new Date(s)] in
    milliseconds, [None] for an invalid date (NaN). *)
Variable Date_parse : jsstring → option Z.

(** The thrown [TypeError] of a property read on [null]. *)
Variable TypeError_null : exn.

(** The time value of [new Date(v)]. *)
Definition new_Date (v : value) : option Z :=
  match v with
  | Undefined => None
  | Null => Some 0%Z
  | Bool b => Some (if b then 1%Z else 0%Z)
  | Str s => Date_parse s
  end.

(** [new Date(v) > new Date()] at current time [now]: a comparison
    with NaN is false. *)
Definition date_after_now (now : Z) (v : value) : bool :=
  match new_Date v with
  | Some t => bool_decide (now < t)%Z
  | None => false
  end.

(** The [active] expression of [fetchPlan], on the row [data]. *)
Definition fetchPlan_active (now : Z) (data : profile) : value :=
  and_ (and_ (and_
    (Bool (strict_eq (of_nullable (plan_tier data)) (Str (lit "premium"))))
    (Bool (strict_eq (of_nullable (plan_status data)) (Str (lit "active")))))
    (of_nullable (plan_renews_at data)))
    (Bool (date_after_now now (of_nullable (plan_renews_at data)))).

(** The [try] block of [fetchPlan]. *)
Definition fetchPlan_try (now : Z) (res : query_result) (st : state)
  : completion state :=
  match res with
  | Rejected e => Throw e
  | Resolved data error =>
      match error with
      | Some e => Throw e
      | None =>
          match data with
          | None => Throw TypeError_null
          | Some data =>
              let active := fetchPlan_active now data in
              Normal (set_planRenewsAt (of_nullable (plan_renews_at data))
                       (set_isPremiumActive active st))
          end
      end
  end.

(** [fetchPlan]: nothing without a signed-in user; the [catch] block
    sets the flag to [false]. *)
Definition fetchPlan (user : option jsstring) (now : Z)
    (res : query_result) (st : state) : state :=
  match user with
  | None => st
  | Some _ =>
      match fetchPlan_try now res st with
      | Normal st' => st'
      | Throw _ => set_isPremiumActive (Bool false) st
      end
  end.

(** The realtime [UPDATE] handler of the [plan-updates] channel, on
    [payload.new]. *)
Definition on_plan_update (now : Z) (new : profile) (st : state) : state :=
  let plan := of_nullable (plan_tier new) in
  let renewAt := of_nullable (plan_renews_at new) in
  let active :=
    and_ (and_ (and_
      (Bool (strict_eq plan (Str (lit "premium"))))
      (Bool (strict_eq (of_nullable (plan_status new)) (Str (lit "active")))))
      renewAt)
      (Bool (date_after_now now renewAt)) in
  set_planRenewsAt renewAt (set_isPremiumActive active st).

(** The plan of a row is a running premium plan at time [now]: the tier
    is premium, the status is active, and the renewal timestamp is there
    (an empty string is no timestamp) and denotes a time after [now]. *)
Definition premium_plan (now : Z) (p : profile) : Prop :=
  plan_tier p = Some (lit "premium") ∧
  plan_status p = Some (lit "active") ∧
  ∃ s t, plan_renews_at p = Some s ∧ s ≠ [] ∧
         Date_parse s = Some t ∧ (now < t)%Z.

End WithClock.

(** The one-time fetch failed: the promise rejected, an error came back,
    or there was no row to read the plan from. *)
Definition fetch_failed (res : query_result) : Prop :=
  match res with
  | Rejected _ => True
  | Resolved _ (Some _) => True
  | Resolved None None => True
  | Resolved (Some _) None => False
  end.

(** The [completedRecordings] count of [handleNewCast]. *)
Definition completedRecordings (st : state) : nat :=
  length (filter
    (λ c, strict_eq (of_nullable (status c)) (Str (lit "recorded")) = true)
    (careerCasts st)).

(** [handleNewCast]. *)
Definition handleNewCast (st : state) : state :=
  if truthy (isPremiumActive st) then
    navigate (lit "/step1") st
  else if bool_decide (3 ≤ completedRecordings st) then
    set_showPricingPopup true st
  else
    navigate (lit "/step1") st.

(** The upgrade popup is rendered under
    [!isPremiumActive && showPricingPopup]. *)
Definition popup_shown (st : state) : bool :=
  negb (truthy (isPremiumActive st)) && showPricingPopup st.

(** [handleViewDetails]. *)
Definition handleViewDetails (cid : jsstring) (st : state) : state :=
  navigate (lit "/final-result/" ++ cid) st.

(** Per table row: [video] is
    [cast.recordings?.[0]?.storage_path || null]. *)
Definition row_video (c : cast) : value :=
  let first : value :=
    match recordings c with
    | None => Undefined
    | Some rs =>
        match rs !! 0 with
        | None => Undefined
        | Some r => of_nullable (storage_path r)
        end
    end in
  or_ first Null.

(** [both] is [cast.resume_path && video]. *)
Definition row_both (c : cast) : value :=
  and_ (of_nullable (resume_path c)) (row_video c).

(** The "View" button carries [disabled={!both}]. *)
Definition view_disabled (c : cast) : bool := negb (truthy (row_both c)).

(** A click on the "View" button.  The browser delivers no click to a
    disabled button; the handler itself is
    [() => both && handleViewDetails(cast.id)]. *)
Definition view_onClick (c : cast) (st : state) : state :=
  if truthy (row_both c) then handleViewDetails (id c) st else st.

Definition click_view (c : cast) (st : state) : state :=
  if view_disabled c then st else view_onClick c st.

(** The row has a non-empty resume reference. *)
Definition has_resume (c : cast) : Prop :=
  ∃ p, resume_path c = Some p ∧ p ≠ [].

(** The row's first recording has a non-empty video reference. *)
Definition has_video (c : cast) : Prop :=
  ∃ r rs v, recordings c = Some (r :: rs) ∧ storage_path r = Some v ∧ v ≠ [].

(** *** The rest of the dashboard *)

Definition set_careerCasts (cs : list cast) (st : state) : state :=
  State cs (loading st) (selectedVideo st) (showPricingPopup st)
        (isPremiumActive st) (planRenewsAt st) (navigations st).

Definition set_loading (b : bool) (st : state) : state :=
  State (careerCasts st) b (selectedVideo st) (showPricingPopup st)
        (isPremiumActive st) (planRenewsAt st) (navigations st).

Definition set_selectedVideo (v : option jsstring) (st : state) : state :=
  State (careerCasts st) (loading st) v (showPricingPopup st)
        (isPremiumActive st) (planRenewsAt st) (navigations st).

(** The state cells as [useState] initialises them. *)
Definition initial : state :=
  State [] true None false (Bool false) Null [].

(** What [await supabase.from('job_requests')...order(...)] yields: the
    promise rejects, or it resolves to [{ data, error }], where [data] is
    [null] or an array of rows. *)
Inductive rows_result : Type :=
| RowsRejected (e : exn)
| RowsResolved (data : option (list cast)) (error : option exn).

(** The [try] block of [fetchCareerCasts] after [setLoading(true)];
    [data || []] is [data] for every array, the empty one included. *)
Definition fetchCareerCasts_try (res : rows_result) (st : state)
  : completion state :=
  match res with
  | RowsRejected e => Throw e
  | RowsResolved data error =>
      match error with
      | Some e => Throw e
      | None =>
          Normal (set_careerCasts
                    (match data with Some rows => rows | None => [] end) st)
      end
  end.

(** [fetchCareerCasts]: nothing without a signed-in user; the [catch]
    block only logs; the [finally] block clears [loading]. *)
Definition fetchCareerCasts (user : option jsstring) (res : rows_result)
    (st : state) : state :=
  match user with
  | None => st
  | Some _ =>
      let st1 := set_loading true st in
      let st2 :=
        match fetchCareerCasts_try res st1 with
        | Normal st' => st'
        | Throw _ => st1
        end in
      set_loading false st2
  end.

(** The rows fetch failed: the promise rejected or an error came back. *)
Definition rows_failed (res : rows_result) : Prop :=
  match res with
  | RowsRejected _ => True
  | RowsResolved _ (Some _) => True
  | RowsResolved _ None => False
  end.

(** [handleLogout], [handleReRecord], [handleCloseVideo] and
    [handleClosePricingPopup]. *)
Definition handleLogout (st : state) : state := navigate (lit "/") st.

Definition handleReRecord (cid : jsstring) (st : state) : state :=
  navigate (lit "/record/" ++ cid) st.

Definition handleCloseVideo (st : state) : state := set_selectedVideo None st.

Definition handleClosePricingPopup (st : state) : state :=
  set_showPricingPopup false st.

(** The click handler of the popup's "Upgrade Now" button. *)
Definition upgrade_onClick (st : state) : state :=
  navigate (lit "/billing") (handleClosePricingPopup st).

(** The icons of a status badge. *)
Inductive icon : Type := CheckCircle | Clock.

(** What [getBadge] renders: the span's class, its icon and the text after
    the icon, which begins with the blank that separates the two. *)
Record badge : Type := Badge {
  badge_class : jsstring;
  badge_icon : icon;
  badge_text : jsstring
}.

(** [getBadge]: a [switch] on the status, by strict equality. *)
Definition getBadge (status : value) : badge :=
  if strict_eq status (Str (lit "recorded")) then
    Badge (lit "inline-flex items-center gap-1 bg-emerald-100 text-emerald-700 px-3 py-1.5 rounded-md text-xs font-medium")
          CheckCircle (lit " Recorded")
  else if strict_eq status (Str (lit "ready")) then
    Badge (lit "inline-flex items-center gap-1 bg-blue-100 text-blue-700 px-3 py-1.5 rounded-md text-xs font-medium")
          Clock (lit " Resume Uploaded")
  else
    Badge (lit "inline-flex items-center gap-1 bg-gray-100 text-gray-600 px-3 py-1.5 rounded-md text-xs font-medium")
          Clock (lit " Draft").

(** The plan line of the header: under [isPremiumActive && planRenewsAt]
    the renewal date, else the free plan. *)
Inductive banner : Type :=
| PremiumUntil (renews : value)
| FreePlan.

Definition plan_banner (st : state) : banner :=
  if truthy (and_ (isPremiumActive st) (planRenewsAt st))
  then PremiumUntil (planRenewsAt st)
  else FreePlan.

(** The body of the card: the spinner while loading, the empty state
    without rows, the table otherwise. *)
Inductive body : Type :=
| Spinner
| EmptyState
| Table (rows : list cast).

Definition render_body (st : state) : body :=
  if loading st then Spinner
  else if bool_decide (length (careerCasts st) = 0) then EmptyState
  else Table (careerCasts st).

(** The cells of a table row: the title is
    [cast.job_title || 'Untitled']; the resume cell is a link under
    [cast.resume_path]; the video cell is a play button under [video]. *)
Definition title_cell (c : cast) : value :=
  or_ (of_nullable (job_title c)) (Str (lit "Untitled")).

Inductive resume_cell : Type :=
| ResumeLink (href : value)
| NoResume.

Definition row_resume_cell (c : cast) : resume_cell :=
  if truthy (of_nullable (resume_path c))
  then ResumeLink (of_nullable (resume_path c))
  else NoResume.

Inductive video_cell : Type :=
| PlayButton (video : value)
| NoVideo.

Definition row_video_cell (c : cast) : video_cell :=
  if truthy (row_video c) then PlayButton (row_video c) else NoVideo.

(** The string held by a value that is a string. *)
Definition as_string (v : value) : option jsstring :=
  match v with
  | Str s => Some s
  | _ => None
  end.

(** A click on the video cell: [setSelectedVideo(video)] on the play
    button, nothing on the "No video" text. *)
Definition click_video (c : cast) (st : state) : state :=
  match row_video_cell c with
  | PlayButton video => set_selectedVideo (as_string video) st
  | NoVideo => st
  end.

End Dashboard.

(** ** The script page (wizard step 3) *)

Module Step3.

(** What [await supabase.functions.invoke(...)] yields: the promise
    rejects, or it resolves to [{ data, error }], where [data] is [null] or
    an object whose [introduction] is absent or a string, and [error] is
    [null] or an object with a string [message]. *)
Record intro_data : Type := IntroData {
  introduction : option jsstring
}.

Inductive invoke_result : Type :=
| Rejected (e : exn)
| Resolved (data : option intro_data) (error : option jsstring).

(** The line break and the double quote of the template literal. *)
Definition nl : jsstring := [10%N].
Definition dq : jsstring := [34%N].

(** [buildPrompt]: the template literal, line by line. *)
Definition buildPrompt (jobTitle jobDesc resumeText : jsstring) : jsstring :=
  nl ++
  lit "      You are a professional career coach." ++ nl ++
  lit "      Create a 30-60 second video introduction script for a candidate applying for the position of " ++ dq ++ jobTitle ++ dq ++ lit "." ++ nl ++
  lit "      " ++ nl ++
  lit "      Job Description:" ++ nl ++
  lit "      " ++ slice0 1500 jobDesc ++ nl ++
  nl ++
  lit "      Candidate's Resume:" ++ nl ++
  lit "      " ++ slice0 2000 resumeText ++ nl ++
  nl ++
  lit "      The script should be:" ++ nl ++
  lit "      - Professional, confident, and engaging." ++ nl ++
  lit "      - Highlight key skills matching the job description." ++ nl ++
  lit "      - Written in the first person (" ++ dq ++ lit "I am..." ++ dq ++ lit ")." ++ nl ++
  lit "      - Easy to read aloud (teleprompter friendly)." ++ nl ++
  lit "      - No placeholders like [Your Name], use the candidate's actual details if available, or generic but natural phrasing." ++ nl ++
  lit "    ".

(** [x || d] for a nullable string [x] and a string [d]. *)
Definition or_default (x : option jsstring) (d : jsstring) : jsstring :=
  if truthy (of_nullable x) then default [] x else d.

(** The message literals of the page. *)
Definition msg_missing : jsstring :=
  lit "Missing job title, description, or resume. Please complete Step 1 and 2 first.".
Definition msg_could_not : jsstring := lit "Could not generate introduction.".
Definition msg_went_wrong : jsstring := lit "Something went wrong while generating.".
Definition msg_failed : jsstring := lit "Failed to generate script. Please try again.".
Definition msg_step1 : jsstring := lit "Please complete Step 1 (Job Details) first.".
Definition msg_placeholder : jsstring :=
  lit "Please go back to Step 1 and provide job details to generate your personalized introduction.".
Definition msg_wait : jsstring := lit "Wait for AI to generate your script first.".

(** What the page does to the outside world, in the order it does it. *)
Inductive event : Type :=
| SetItem (key : string) (v : jsstring)
| ShowToast (msg kind : jsstring)
| Invoke (prompt : jsstring)
| Navigate (path : jsstring).

Section WithPlatform.

Context {number : Type}.

(** The platform's [toString()] on numbers. *)
Variable Number_toString : number → jsstring.

(** The thrown [TypeError] of a property read on [null]. *)
Variable TypeError_null : exn.

(** The remote function [generate-intro]: what a call yields, given all
    that the page did before the call and the prompt sent. *)
Variable invoke : list event → jsstring → invoke_result.

(** The component's state cells, [localStorage], and the trace of
    [localStorage.setItem], [showToast], remote and [navigate] calls. *)
Record state : Type := State {
  teleprompterText : jsstring;
  isGenerating : bool;
  isRewriting : bool;
  error : value;
  teleprompterSpeed : number;
  localStorage : gmap string jsstring;
  trace : list event
}.

(** Code that reads and writes the state and may throw. *)
Definition M (A : Type) : Type := state → state * completion A.

#[local] Instance M_ret : MRet M := λ A a st, (st, Normal a).

#[local] Instance M_bind : MBind M := λ A B k m st,
  match m st with
  | (st1, Normal a) => k a st1
  | (st1, Throw e) => (st1, Throw e)
  end.

Definition throw {A} (e : exn) : M A := λ st, (st, Throw e).

Definition gets {A} (f : state → A) : M A := λ st, (st, Normal (f st)).

Definition modify (f : state → state) : M unit := λ st, (f st, Normal tt).

(** [try { body } catch (err) { handler err } finally { fin }]. *)
Definition try_catch_finally (body : M unit) (handler : exn → M unit)
    (fin : M unit) : M unit := λ st,
  match body st with
  | (st1, Normal _) => fin st1
  | (st1, Throw e) =>
      match handler e st1 with
      | (st2, Normal _) => fin st2
      | (st2, Throw e2) =>
          match fin st2 with
          | (st3, Normal _) => (st3, Throw e2)
          | (st3, Throw e3) => (st3, Throw e3)
          end
      end
  end.

(** The state after a handler has run. *)
Definition run (m : M unit) (st : state) : state := fst (m st).

Definition emit (e : event) : M unit :=
  modify (λ st, State (teleprompterText st) (isGenerating st) (isRewriting st)
    (error st) (teleprompterSpeed st) (localStorage st) (trace st ++ [e])).

Definition setTeleprompterText (v : jsstring) : M unit :=
  modify (λ st, State v (isGenerating st) (isRewriting st) (error st)
    (teleprompterSpeed st) (localStorage st) (trace st)).

Definition setIsGenerating (b : bool) : M unit :=
  modify (λ st, State (teleprompterText st) b (isRewriting st) (error st)
    (teleprompterSpeed st) (localStorage st) (trace st)).

Definition setIsRewriting (b : bool) : M unit :=
  modify (λ st, State (teleprompterText st) (isGenerating st) b (error st)
    (teleprompterSpeed st) (localStorage st) (trace st)).

Definition setError (v : value) : M unit :=
  modify (λ st, State (teleprompterText st) (isGenerating st) (isRewriting st)
    v (teleprompterSpeed st) (localStorage st) (trace st)).

Definition setTeleprompterSpeed (n : number) : M unit :=
  modify (λ st, State (teleprompterText st) (isGenerating st) (isRewriting st)
    (error st) n (localStorage st) (trace st)).

(** [localStorage.getItem(key)]: [null] or the stored string. *)
Definition getItem (key : string) : M (option jsstring) :=
  gets (λ st, localStorage st !! key).

(** [localStorage.setItem(key, v)]. *)
Definition setItem (key : string) (v : jsstring) : M unit :=
  modify (λ st, State (teleprompterText st) (isGenerating st) (isRewriting st)
    (error st) (teleprompterSpeed st) (<[key := v]> (localStorage st))
    (trace st));;
  emit (SetItem key v).

Definition showToast (msg kind : jsstring) : M unit := emit (ShowToast msg kind).

Definition navigate (path : jsstring) : M unit := emit (Navigate path).

(** [supabase.functions.invoke("generate-intro", { body: { prompt } })]:
    the prompt is sent, and the platform answers. *)
Definition functions_invoke (prompt : jsstring) : M invoke_result :=
  before ← gets trace;
  emit (Invoke prompt);;
  mret (invoke before prompt).

(** [callOpenAI]: the [await] throws when the promise rejects. *)
Definition callOpenAI (prompt : jsstring) : M jsstring :=
  r ← functions_invoke prompt;
  match r with
  | Rejected e => throw e
  | Resolved data error =>
      match error with
      | Some message => throw (Error message)
      | None =>
          match data with
          | None => throw TypeError_null
          | Some data => mret (or_default (introduction data) msg_could_not)
          end
      end
  end.

(** [generateIntroduction]. *)
Definition generateIntroduction : M unit :=
  setIsGenerating true;;
  setError Null;;
  try_catch_finally
    (jobTitle ← getItem "careercast_jobTitle";
     jobDescription ← getItem "careercast_jobDescription";
     resumeText ← getItem "resumeFullText";
     if negb (truthy (of_nullable jobTitle))
        || negb (truthy (of_nullable jobDescription))
        || negb (truthy (of_nullable resumeText))
     then throw (Error msg_missing)
     else
       let prompt := buildPrompt (default [] jobTitle)
                       (default [] jobDescription) (default [] resumeText) in
       result ← callOpenAI prompt;
       setTeleprompterText result;;
       setItem "teleprompterText" result)
    (λ err,
       setError (or_ (message err) (Str msg_went_wrong));;
       showToast msg_failed (lit "error"))
    (setIsGenerating false;;
     setIsRewriting false).

(** The mount effect. *)
Definition mount : M unit :=
  saved ← getItem "teleprompterText";
  jobTitle ← getItem "careercast_jobTitle";
  if truthy (of_nullable saved) && bool_decide (10 < length (default [] saved))
  then setTeleprompterText (default [] saved)
  else if truthy (of_nullable jobTitle)
  then generateIntroduction
  else
    setError (Str msg_step1);;
    setTeleprompterText msg_placeholder.

(** [handleStartRecording]. *)
Definition handleStartRecording : M unit :=
  teleprompterText ← gets teleprompterText;
  if negb (truthy (Str teleprompterText))
     || includes teleprompterText (lit "Please go back")
  then showToast msg_wait (lit "warning")
  else
    setItem "teleprompterText" teleprompterText;;
    teleprompterSpeed ← gets teleprompterSpeed;
    setItem "teleprompterSpeed" (Number_toString teleprompterSpeed);;
    navigate (lit "/record").

(** [handleTextChange], on [e.target.value]. *)
Definition handleTextChange (v : jsstring) : M unit :=
  setTeleprompterText v;;
  setItem "teleprompterText" v.

(** The states after each of a sequence of change events, in order. *)
Fixpoint after_edits (st : state) (vs : list jsstring) : list state :=
  match vs with
  | [] => []
  | v :: vs' =>
      let st' := run (handleTextChange v) st in
      st' :: after_edits st' vs'
  end.

(** The script stored for the next wizard step. *)
Definition stored_script (st : state) : option jsstring :=
  localStorage st !! "teleprompterText".

(** The same page over a storage in which the saved script is [s]. *)
Definition with_stored_script (s : jsstring) (st : state) : state :=
  State (teleprompterText st) (isGenerating st) (isRewriting st) (error st)
    (teleprompterSpeed st) (<["teleprompterText" := s]> (localStorage st))
    (trace st).

(** The three inputs of the generate action, when all of them are stored
    and none is the empty string. *)
Definition inputs (st : state) : option (jsstring * jsstring * jsstring) :=
  match localStorage st !! "careercast_jobTitle",
        localStorage st !! "careercast_jobDescription",
        localStorage st !! "resumeFullText" with
  | Some t, Some d, Some r =>
      if truthy (Str t) && truthy (Str d) && truthy (Str r)
      then Some (t, d, r) else None
  | _, _, _ => None
  end.

(** *** The rest of the page *)

(** The platform's [parseFloat]. *)
Variable parseFloat : jsstring → number.

(** [handleLogout]. *)
Definition handleLogout : M unit := navigate (lit "/").

(** The [onChange] handler of the speed slider, on [e.target.value]. *)
Definition handleSpeedChange (v : jsstring) : M unit :=
  setTeleprompterSpeed (parseFloat v).

(** The [disabled] attributes of the text area, of the "Regenerate" button
    and of the "Start Recording" button. *)
Definition textarea_disabled (st : state) : bool := isGenerating st.

Definition regenerate_disabled (st : state) : bool := isGenerating st.

Definition start_disabled (st : state) : bool :=
  isGenerating st || negb (truthy (Str (teleprompterText st))).

(** The error box is rendered under [error]. *)
Definition error_shown (st : state) : bool := truthy (error st).

(** What the user can do on the page. *)
Inductive action : Type :=
| Regenerate
| Edit (v : jsstring)
| SpeedChange (v : jsstring)
| StartRecording
| Logout.

(** The page after a user action: a disabled control delivers no event,
    an enabled one runs its handler. *)
Definition perform (a : action) (st : state) : state :=
  match a with
  | Regenerate =>
      if regenerate_disabled st then st else run generateIntroduction st
  | Edit v =>
      if textarea_disabled st then st else run (handleTextChange v) st
  | SpeedChange v => run (handleSpeedChange v) st
  | StartRecording =>
      if start_disabled st then st else run handleStartRecording st
  | Logout => run handleLogout st
  end.

(** The page after a sequence of user actions. *)
Definition perform_all (acts : list action) (st : state) : state :=
  foldl (λ st a, perform a st) st acts.

(** The displayed script is the stored one. *)
Definition synced (st : state) : Prop :=
  stored_script st = Some (teleprompterText st).

(** The generate action has its inputs and the remote function answers
    with data. *)
Definition generate_succeeds (st : state) : Prop :=
  ∃ t d r data,
    inputs st = Some (t, d, r) ∧
    invoke (trace st) (buildPrompt t d r) = Resolved (Some data) None.

End WithPlatform.

Arguments state : clear implicits.

(** The remote call failed: the promise rejected, an error came back, or
    the answer carried no data to read the introduction from. *)
Definition invoke_failed (r : invoke_result) : Prop :=
  match r with
  | Rejected _ => True
  | Resolved _ (Some _) => True
  | Resolved None None => True
  | Resolved (Some _) None => False
  end.

(** The calls of the remote function in a trace. *)
Definition invocations (tr : list event) : list jsstring :=
  omap (λ e, match e with Invoke p => Some p | _ => None end) tr.

#[global] Instance action_eq_dec : EqDecision action.
Proof. solve_decision. Defined.

(** The clicks on "Regenerate" among a sequence of user actions. *)
Definition regenerations (acts : list action) : nat :=
  length (filter (λ a, a = Regenerate) acts).

(** The navigations in a trace. *)
Definition navigations (tr : list event) : list jsstring :=
  omap (λ e, match e with Navigate p => Some p | _ => None end) tr.

(** The generate action was attempted between [st] and [st']: the remote
    function was called once more, with the prompt built from the stored
    inputs, or, for want of an input, the missing-prerequisite error and
    the failure toast were shown; either way the page has stopped
    generating. *)
Definition generation_attempted {number : Type} (st st' : state number)
  : Prop :=
  isGenerating st' = false ∧
  match inputs st with
  | Some (t, d, r) =>
      invocations (trace st') = invocations (trace st) ++ [buildPrompt t d r]
  | None =>
      trace st' = trace st ++ [ShowToast msg_failed (lit "error")] ∧
      error st' = Str msg_missing
  end.

(** Between [st] and [st'] the page has shown the step-1 error and the
    placeholder text, and has done nothing else. *)
Definition placeholder_shown {number : Type} (st st' : state number) : Prop :=
  teleprompterText st' = msg_placeholder ∧
  error st' = Str msg_step1 ∧
  trace st' = trace st ∧
  localStorage st' = localStorage st.

End Step3.

(** ** Sample data

    Concrete platforms, rows and page states on which the properties below
    are exercised. *)

Module Sample.

(** A date parser that knows one timestamp, the start of 2030 (UTC). *)
Definition Date_parse (s : jsstring) : option Z :=
  if bool_decide (s = lit "2030-01-01T00:00:00+00:00")
  then Some 1893456000000%Z else None.

Definition TypeError_null : exn :=
  Error (lit "Cannot read properties of null").

(** The start of November 2026 (UTC), in milliseconds. *)
Definition now : Z := 1793491200000%Z.

Definition user : jsstring := lit "u1".

Definition premium_row : Dashboard.profile :=
  Dashboard.Profile (Some (lit "premium")) (Some (lit "active"))
    (Some (lit "2030-01-01T00:00:00+00:00")).

Definition lapsed_row : Dashboard.profile :=
  Dashboard.Profile (Some (lit "premium")) (Some (lit "active")) None.

Definition recorded_cast (n : jsstring) : Dashboard.cast :=
  Dashboard.Cast n (Some (lit "Nurse")) (Some (lit "resumes/cv.pdf"))
    (Some (lit "recorded")) (Some (lit "2026-10-01T09:00:00+00:00"))
    (Some [Dashboard.Recording (Some (lit "videos/take1.webm"))]).

Definition draft_cast : Dashboard.cast :=
  Dashboard.Cast (lit "d") (Some (lit "Clerk")) (Some (lit "resumes/cv.pdf"))
    (Some (lit "draft")) (Some (lit "2026-10-02T09:00:00+00:00")) (Some []).

(** A free user's dashboard with [casts] loaded. *)
Definition dashboard (casts : list Dashboard.cast) : Dashboard.state :=
  Dashboard.State casts false None false (Bool false) Null [].

Definition three_recorded : list Dashboard.cast :=
  [recorded_cast (lit "a"); draft_cast; recorded_cast (lit "b");
   recorded_cast (lit "c")].

(** The query came back with an error and no row. *)
Definition failed_query : Dashboard.query_result :=
  Dashboard.Resolved None (Some (Error (lit "JWT expired"))).

(** The speed slider is left at its initial position. *)
Definition Number_toString (n : unit) : jsstring := lit "1".

(** A remote function that always answers with an error. *)
Definition failing_invoke (before : list Step3.event) (prompt : jsstring)
  : Step3.invoke_result :=
  Step3.Resolved None (Some (lit "Edge Function returned a non-2xx status code")).

(** A remote function that always answers with a script. *)
Definition working_invoke (before : list Step3.event) (prompt : jsstring)
  : Step3.invoke_result :=
  Step3.Resolved (Some (Step3.IntroData (Some (lit "Hello, I am a nurse."))))
    None.

Definition full_storage : gmap string jsstring :=
  <["careercast_jobTitle" := lit "Nurse"]>
    (<["careercast_jobDescription" := lit "Care for patients"]>
       (<["resumeFullText" := lit "RN, five years"]> ∅)).

(** The page as first rendered, over [storage]. *)
Definition page (storage : gmap string jsstring) : Step3.state unit :=
  Step3.State [] false false Null tt storage [].

(** A remote function that answers with data but no introduction. *)
Definition silent_invoke (before : list Step3.event) (prompt : jsstring)
  : Step3.invoke_result :=
  Step3.Resolved (Some (Step3.IntroData None)) None.

(** The slider has one position. *)
Definition parseFloat (v : jsstring) : unit := tt.

(** A row whose first recording has no file and whose second has one. *)
Definition late_video_cast : Dashboard.cast :=
  Dashboard.Cast (lit "e") (Some (lit "Cook")) (Some (lit "resumes/cv.pdf"))
    (Some (lit "recorded")) (Some (lit "2026-10-03T09:00:00+00:00"))
    (Some [Dashboard.Recording None;
           Dashboard.Recording (Some (lit "videos/take2.webm"))]).

(** The rows query came back with an error. *)
Definition failed_rows : Dashboard.rows_result :=
  Dashboard.RowsResolved None (Some (Error (lit "timeout"))).

End Sample.

(** * Properties *)

(** ** Strings *)

Module JSFacts.

Lemma truthy_Str (s : jsstring) : truthy (Str s) = true ↔ s ≠ [].
Proof.
  unfold truthy. rewrite negb_true_iff, bool_decide_eq_false. done.
Qed.

Lemma truthy_of_nullable (o : option jsstring) :
  truthy (of_nullable o) = true ↔ ∃ s, o = Some s ∧ s ≠ [].
Proof.
  destruct o as [s|]; simpl.
  - fold (truthy (Str s)). rewrite truthy_Str. split.
    + intros H. exists s. done.
    + intros (s' & [= <-] & H). done.
  - split; [done | intros (s & H & _); done].
Qed.

Lemma starts_with_spec (sub s : jsstring) :
  starts_with sub s = true ↔ ∃ post, s = sub ++ post.
Proof.
  revert s. induction sub as [|a sub IH]; intros s; simpl.
  - split; [eauto | done].
  - destruct s as [|b s].
    + split; [done | intros [post H]; discriminate].
    + rewrite andb_true_iff, bool_decide_eq_true, IH. split.
      * intros [-> [post ->]]. eauto.
      * intros [post H]. injection H as -> ->. eauto.
Qed.

Lemma includes_spec (s sub : jsstring) :
  includes s sub = true ↔ substring_of sub s.
Proof.
  unfold substring_of. induction s as [|b s IH].
  - simpl. rewrite orb_false_r, starts_with_spec. split.
    + intros [post H]. exists [], post. done.
    + intros (pre & post & H). symmetry in H.
      apply app_eq_nil in H as [-> H]. eauto.
  - cbn [includes]. rewrite orb_true_iff, starts_with_spec, IH. split.
    + intros [[post H] | (pre & post & H)].
      * exists [], post. done.
      * exists (b :: pre), post. rewrite H. done.
    + intros (pre & post & H). destruct pre as [|c pre].
      * left. exists post. done.
      * right. injection H as -> H. eauto.
Qed.

Lemma includes_false (s sub : jsstring) :
  includes s sub = false ↔ ¬ substring_of sub s.
Proof.
  rewrite <- includes_spec. destruct (includes s sub); naive_solver.
Qed.

End JSFacts.

(** ** The dashboard *)

Module DashboardFacts.

Import Dashboard.

Section Plan.

Variable Date_parse : jsstring → option Z.
Variable TypeError_null : exn.

Lemma strict_eq_lit (o : option jsstring) (s : jsstring) :
  strict_eq (of_nullable o) (Str s) = true ↔ o = Some s.
Proof.
  unfold strict_eq. rewrite bool_decide_eq_true.
  destruct o as [x|]; simpl; split; congruence.
Qed.

Lemma date_after_now_iff (now : Z) (s : jsstring) :
  date_after_now Date_parse now (Str s) = true ↔
  ∃ t, Date_parse s = Some t ∧ (now < t)%Z.
Proof.
  unfold date_after_now, new_Date. destruct (Date_parse s) as [t|].
  - rewrite bool_decide_eq_true. split; [eauto | intros (t' & [= <-] & H); done].
  - split; [done | intros (t & H & _); done].
Qed.

(** The value of the [active] expression is [true] exactly on a running
    premium plan. *)
Lemma active_true_iff (now : Z) (p : profile) :
  fetchPlan_active Date_parse now p = Bool true ↔ premium_plan Date_parse now p.
Proof.
  unfold fetchPlan_active, premium_plan.
  destruct (strict_eq (of_nullable (plan_tier p)) (Str (lit "premium")))
    eqn:Htier; cycle 1.
  { split; [done |]. intros [H _]. apply strict_eq_lit in H. congruence. }
  destruct (strict_eq (of_nullable (plan_status p)) (Str (lit "active")))
    eqn:Hstatus; cycle 1.
  { split; [done |]. intros (_ & H & _). apply strict_eq_lit in H. congruence. }
  apply strict_eq_lit in Htier, Hstatus.
  unfold and_ at 2 3. cbn [truthy]. unfold and_.
  destruct (plan_renews_at p) as [s|] eqn:Hrenew; cbn [of_nullable]; cycle 1.
  { cbn [truthy]. split; [done |]. intros (_ & _ & s & t & H & _). done. }
  destruct (truthy (Str s)) eqn:Hs.
  - apply JSFacts.truthy_Str in Hs. split.
    + intros [= H]. apply date_after_now_iff in H as (t & Ht & Hlt).
      do 2 (split; [done |]). exists s, t. done.
    + intros (_ & _ & s' & t & [= <-] & _ & Ht & Hlt).
      f_equal. apply date_after_now_iff. eauto.
  - split; [done |]. intros (_ & _ & s' & t & [= <-] & Hne & _).
    apply JSFacts.truthy_Str in Hne. congruence.
Qed.

(** The [active] expression is truthy only when it is [true]. *)
Lemma active_truthy (now : Z) (p : profile) :
  truthy (fetchPlan_active Date_parse now p) = true ↔
  fetchPlan_active Date_parse now p = Bool true.
Proof.
  split; [| intros ->; done].
  unfold fetchPlan_active, and_.
  repeat match goal with
         | |- context [truthy ?v] =>
             lazymatch v with
             | context [truthy _] => fail
             | _ => let E := fresh in destruct (truthy v) eqn:E
             end
         end; cbn [truthy] in *; congruence.
Qed.

(** The flag is [true], and truthy, exactly on a running premium plan,
    after the fetch and after the realtime handler. *)
Lemma premium_flag_iff (user : jsstring) (now : Z) (p : profile)
    (st : state) :
  let fetched :=
    fetchPlan Date_parse TypeError_null (Some user) now
      (Resolved (Some p) None) st in
  let notified := on_plan_update Date_parse now p st in
  (isPremiumActive fetched = Bool true ↔ premium_plan Date_parse now p) ∧
  (truthy (isPremiumActive fetched) = true ↔ premium_plan Date_parse now p) ∧
  (isPremiumActive notified = Bool true ↔ premium_plan Date_parse now p) ∧
  (truthy (isPremiumActive notified) = true ↔ premium_plan Date_parse now p).
Proof.
  cbn zeta.
  assert (Hfetch :
    isPremiumActive (fetchPlan Date_parse TypeError_null (Some user) now
                       (Resolved (Some p) None) st)
    = fetchPlan_active Date_parse now p) by reflexivity.
  assert (Hnotify :
    isPremiumActive (on_plan_update Date_parse now p st)
    = fetchPlan_active Date_parse now p) by reflexivity.
  rewrite Hfetch, Hnotify, active_truthy.
  split_and!; apply active_true_iff.
Qed.

(** The [active] expression, operand by operand of its [&&] chain. *)
Lemma active_cases (now : Z) (p : profile) :
  fetchPlan_active Date_parse now p =
  if bool_decide (plan_tier p = Some (lit "premium")) then
    if bool_decide (plan_status p = Some (lit "active")) then
      match plan_renews_at p with
      | None => Null
      | Some s =>
          if bool_decide (s = []) then Str []
          else Bool (date_after_now Date_parse now (Str s))
      end
    else Bool false
  else Bool false.
Proof.
  unfold fetchPlan_active.
  assert (Heq : ∀ o l, strict_eq (of_nullable o) (Str l)
                       = bool_decide (o = Some l)).
  { intros o l. destruct (strict_eq (of_nullable o) (Str l)) eqn:H.
    - apply strict_eq_lit in H. by rewrite bool_decide_eq_true_2.
    - rewrite bool_decide_eq_false_2; [done |].
      intros H'. apply strict_eq_lit in H'. congruence. }
  rewrite !Heq.
  destruct (bool_decide (plan_tier p = Some (lit "premium"))); [| done].
  destruct (bool_decide (plan_status p = Some (lit "active"))); [| done].
  destruct (plan_renews_at p) as [s|]; [| done].
  unfold and_. cbn [truthy of_nullable andb].
  destruct (bool_decide (s = [])) eqn:Hs; cbn [negb].
  - apply bool_decide_eq_true in Hs. by subst s.
  - done.
Qed.

(** The value of the [active] expression off a running premium plan: the
    operand at which the [&&] chain stops. *)
Lemma active_off_values (now : Z) (p : profile) :
  let v := fetchPlan_active Date_parse now p in
  let matching :=
    plan_tier p = Some (lit "premium") ∧ plan_status p = Some (lit "active") in
  (v = Null ↔ matching ∧ plan_renews_at p = None) ∧
  (v = Str [] ↔ matching ∧ plan_renews_at p = Some []) ∧
  (v = Bool false ↔
   ¬ premium_plan Date_parse now p ∧
   ¬ (matching ∧ (plan_renews_at p = None ∨ plan_renews_at p = Some []))).
Proof.
  cbn zeta. pose proof (active_true_iff now p) as Htrue.
  rewrite active_cases in *.
  case_bool_decide as Htier.
  2: { split_and!.
       - split; [done | intros [[? _] _]; done].
       - split; [done | intros [[? _] _]; done].
       - split; [| done]. intros _. split.
         + intros [? _]. done.
         + intros [[? _] _]. done. }
  case_bool_decide as Hstatus.
  2: { split_and!.
       - split; [done | intros [[_ ?] _]; done].
       - split; [done | intros [[_ ?] _]; done].
       - split; [| done]. intros _. split.
         + intros (_ & ? & _). done.
         + intros [[_ ?] _]. done. }
  destruct (plan_renews_at p) as [s|] eqn:Hrenew.
  2: { split_and!.
       - split; done.
       - split; [done | intros [_ ?]; done].
       - split; [done |]. intros [_ H]. exfalso. apply H.
         split; [done | by left]. }
  case_bool_decide as Hs.
  { subst s. split_and!.
    - split; [done | intros [_ ?]; done].
    - split; done.
    - split; [done |]. intros [_ H]. exfalso. apply H.
      split; [done | by right]. }
  split_and!.
  - split; [done | intros [_ ?]; done].
  - split; [done | intros [_ [= ->]]; done].
  - split.
    + intros Hv. split.
      * intros Hplan. apply Htrue in Hplan. congruence.
      * intros [_ [? | [= ->]]]; done.
    + intros [Hplan _].
      destruct (date_after_now Date_parse now (Str s)) eqn:Hdate; [| done].
      exfalso. apply Hplan, Htrue. done.
Qed.

(** [C1] The premium-active flag, as amended.  After the one-time fetch
    has delivered a row, and after the realtime handler has received one,
    the flag is [true] if and only if the row's tier is premium, its status
    is active and its renewal timestamp is present and strictly after the
    current time.  In every other combination the flag is falsy, but it is
    the boolean [false] only in part of them: it is [null] when tier and
    status match and the renewal timestamp is [null], the empty string when
    tier and status match and the renewal timestamp is the empty string,
    and [false] in all remaining combinations. *)
Theorem premium_flag_values (user : jsstring) (now : Z) (p : profile)
    (st : state) :
  let fetched :=
    fetchPlan Date_parse TypeError_null (Some user) now
      (Resolved (Some p) None) st in
  let notified := on_plan_update Date_parse now p st in
  let matching :=
    plan_tier p = Some (lit "premium") ∧ plan_status p = Some (lit "active") in
  let describes (flag : value) :=
    (flag = Bool true ↔ premium_plan Date_parse now p) ∧
    (truthy flag = false ↔ ¬ premium_plan Date_parse now p) ∧
    (flag = Null ↔ matching ∧ plan_renews_at p = None) ∧
    (flag = Str [] ↔ matching ∧ plan_renews_at p = Some []) ∧
    (flag = Bool false ↔
     ¬ premium_plan Date_parse now p ∧
     ¬ (matching ∧ (plan_renews_at p = None ∨ plan_renews_at p = Some []))) in
  describes (isPremiumActive fetched) ∧ describes (isPremiumActive notified).
Proof.
  cbn zeta.
  assert (Hfetch :
    isPremiumActive (fetchPlan Date_parse TypeError_null (Some user) now
                       (Resolved (Some p) None) st)
    = fetchPlan_active Date_parse now p) by reflexivity.
  assert (Hnotify :
    isPremiumActive (on_plan_update Date_parse now p st)
    = fetchPlan_active Date_parse now p) by reflexivity.
  rewrite Hfetch, Hnotify.
  destruct (active_off_values now p) as (Hnull & Hempty & Hfalse).
  assert (Hfalsy : truthy (fetchPlan_active Date_parse now p) = false ↔
                   ¬ premium_plan Date_parse now p).
  { rewrite <- active_true_iff, <- active_truthy.
    destruct (truthy (fetchPlan_active Date_parse now p)); split; done. }
  pose proof (active_true_iff now p) as Htrue.
  split; split_and!; assumption.
Qed.

(** The "recorded" rows counted by the gate. *)
Lemma completedRecordings_spec (st : state) :
  completedRecordings st =
  length (filter (λ c, status c = Some (lit "recorded")) (careerCasts st)).
Proof.
  unfold completedRecordings. induction (careerCasts st) as [|c cs IH]; [done |].
  rewrite !filter_cons.
  destruct (decide (strict_eq (of_nullable (status c)) (Str (lit "recorded")) = true))
    as [H|H];
  destruct (decide (status c = Some (lit "recorded"))) as [H'|H'];
  cbn [length]; try congruence.
  - apply strict_eq_lit in H. done.
  - apply strict_eq_lit in H'. done.
Qed.

(** [C9] The plan gate fails closed.  Whenever the one-time profile fetch
    fails (the request rejects, an error is returned, or no row comes
    back), the premium-active flag is set to [false]; a user with three or
    more recorded submissions then gets the upgrade prompt and no
    navigation from the new-submission action. *)
Theorem fetchPlan_fails_closed (user : jsstring) (now : Z)
    (res : query_result) (st : state) :
  fetch_failed res →
  let st' := fetchPlan Date_parse TypeError_null (Some user) now res st in
  let recorded :=
    length (filter (λ c, status c = Some (lit "recorded")) (careerCasts st')) in
  isPremiumActive st' = Bool false ∧
  (3 ≤ recorded →
   popup_shown (handleNewCast st') = true ∧
   navigations (handleNewCast st') = navigations st').
Proof.
  intros Hfail.
  assert (Hst :
    fetchPlan Date_parse TypeError_null (Some user) now res st
    = set_isPremiumActive (Bool false) st).
  { destruct res as [e | [p|] [e|]]; done. }
  cbn zeta. rewrite Hst. rewrite <- completedRecordings_spec.
  split; [done |]. intros Hcount.
  unfold handleNewCast, popup_shown.
  cbn [set_isPremiumActive isPremiumActive truthy].
  rewrite bool_decide_eq_true_2 by done. done.
Qed.

End Plan.

(** [C2] The new-submission gate.  The action navigates to the first
    wizard step when the premium-active flag is on, and also when it is off
    and fewer than three rows have status "recorded"; when the flag is off
    and at least three rows have that status it opens the upgrade prompt
    and does not navigate. *)
Theorem handleNewCast_gate (st : state) :
  let recorded :=
    length (filter (λ c, status c = Some (lit "recorded")) (careerCasts st)) in
  let st' := handleNewCast st in
  (truthy (isPremiumActive st) = true ∨
   truthy (isPremiumActive st) = false ∧ recorded < 3 →
   navigations st' = navigations st ++ [lit "/step1"] ∧
   showPricingPopup st' = showPricingPopup st) ∧
  (truthy (isPremiumActive st) = false ∧ 3 ≤ recorded →
   showPricingPopup st' = true ∧ popup_shown st' = true ∧
   navigations st' = navigations st).
Proof.
  intros recorded st'. subst recorded st'.
  rewrite <- completedRecordings_spec. unfold handleNewCast, popup_shown.
  split.
  - intros [-> | [-> Hlt]]; [done |].
    rewrite bool_decide_eq_false_2 by lia. done.
  - intros [Hoff Hge]. rewrite Hoff.
    rewrite bool_decide_eq_true_2 by done. cbn. rewrite Hoff. done.
Qed.

Lemma row_video_truthy (c : cast) :
  truthy (row_video c) = true ↔ has_video c.
Proof.
  unfold row_video, has_video, or_.
  destruct (recordings c) as [[|r rs]|]; cbn [lookup list_lookup].
  - cbn. split; [done | intros (r & rs & v & H & _); done].
  - destruct (truthy (of_nullable (storage_path r))) eqn:Hv.
    + rewrite Hv. apply JSFacts.truthy_of_nullable in Hv as (v & Hv & Hne).
      split; [| done]. intros _. exists r, rs, v. done.
    + cbn. split; [done |]. intros (r' & rs' & v & [= <- <-] & Hv' & Hne).
      rewrite Hv' in Hv. cbn in Hv.
      apply negb_false_iff, bool_decide_eq_true in Hv. done.
  - cbn. split; [done | intros (r & rs & v & H & _); done].
Qed.

Lemma row_both_truthy (c : cast) :
  truthy (row_both c) = true ↔ has_resume c ∧ has_video c.
Proof.
  unfold row_both, and_, has_resume.
  rewrite <- row_video_truthy, <- JSFacts.truthy_of_nullable.
  destruct (truthy (of_nullable (resume_path c))) eqn:H.
  - split; [done | intros [_ ?]; done].
  - rewrite H. split; [done | intros [? _]; done].
Qed.

(** [C6] The "View" action of a table row.  It is enabled if and only if
    the row has a non-empty resume reference and the first of its
    recordings has a non-empty video reference; on a row that misses
    either, the button is disabled and a click (whether the browser
    withholds it or the handler runs) does not navigate; on a row that has
    both, a click navigates to the row's detail view. *)
Theorem view_action_enabled_iff (c : cast) (st : state) :
  (view_disabled c = false ↔ has_resume c ∧ has_video c) ∧
  (view_disabled c = true ↔
   click_view c st = st ∧ view_onClick c st = st) ∧
  (view_disabled c = false ↔
   navigations (click_view c st)
   = navigations st ++ [lit "/final-result/" ++ id c]).
Proof.
  unfold view_disabled, click_view, view_onClick, view_disabled.
  rewrite negb_false_iff, negb_true_iff, row_both_truthy.
  rewrite <- row_both_truthy.
  destruct (truthy (row_both c)); cbn.
  - split_and!; [done | | done].
    split; [done |]. intros [H _].
    apply (f_equal navigations) in H. cbn in H.
    apply (f_equal length) in H. rewrite length_app in H. cbn in H. lia.
  - split_and!; [done | done |].
    split; [done |]. intros H.
    apply (f_equal length) in H. rewrite length_app in H. cbn in H. lia.
Qed.

(** The fetch fails closed on the sample dashboard: the query returns an
    error, the flag is [false], and with three recorded rows the
    new-submission action opens the upgrade prompt. *)
Lemma fetchPlan_fails_closed_witness :
  fetch_failed Sample.failed_query ∧
  let st' :=
    fetchPlan Sample.Date_parse Sample.TypeError_null (Some Sample.user)
      Sample.now Sample.failed_query (Sample.dashboard Sample.three_recorded) in
  isPremiumActive st' = Bool false ∧
  popup_shown (handleNewCast st') = true ∧
  navigations (handleNewCast st') = navigations st'.
Proof.
  assert (Hfail : fetch_failed Sample.failed_query) by (simpl; exact I).
  split; [exact Hfail |].
  pose proof (fetchPlan_fails_closed Sample.Date_parse Sample.TypeError_null
                Sample.user Sample.now Sample.failed_query
                (Sample.dashboard Sample.three_recorded) Hfail) as [Hflag Hgate].
  split; [exact Hflag |]. apply Hgate. vm_compute. lia.
Defined.

(** The gate on the sample dashboards: a free user with three recorded
    rows is sent to the upgrade prompt, one with a single draft row goes on
    to the first step. *)
Lemma handleNewCast_gate_witness :
  (let st := Sample.dashboard Sample.three_recorded in
   showPricingPopup (handleNewCast st) = true ∧
   popup_shown (handleNewCast st) = true ∧
   navigations (handleNewCast st) = navigations st) ∧
  (let st := Sample.dashboard [Sample.draft_cast] in
   navigations (handleNewCast st) = navigations st ++ [lit "/step1"] ∧
   showPricingPopup (handleNewCast st) = showPricingPopup st).
Proof.
  split.
  - apply (handleNewCast_gate (Sample.dashboard Sample.three_recorded)).
    split; [reflexivity | vm_compute; lia].
  - apply (handleNewCast_gate (Sample.dashboard [Sample.draft_cast])).
    right. split; [reflexivity | vm_compute; lia].
Defined.

(** The flag on the sample rows: on for the premium row that renews in
    2030, and [null] (off) for the row without a renewal timestamp. *)
Example premium_flag_samples :
  isPremiumActive
    (on_plan_update Sample.Date_parse Sample.now Sample.premium_row
       (Sample.dashboard [])) = Bool true ∧
  isPremiumActive
    (on_plan_update Sample.Date_parse Sample.now Sample.lapsed_row
       (Sample.dashboard [])) = Null.
Proof. split; vm_compute; reflexivity. Qed.

(** The "View" action on the sample rows. *)
Example view_action_samples :
  view_disabled (Sample.recorded_cast (lit "a")) = false ∧
  view_disabled Sample.draft_cast = true.
Proof. split; vm_compute; reflexivity. Qed.

(** The flag is not [false] on every row off a running premium plan: on
    the sample row with premium tier, active status and no renewal
    timestamp, the fetch and the realtime handler both store [null]. *)
Lemma premium_flag_null_counterexample :
  let fetched :=
    fetchPlan Sample.Date_parse Sample.TypeError_null (Some Sample.user)
      Sample.now (Resolved (Some Sample.lapsed_row) None) (Sample.dashboard []) in
  let notified :=
    on_plan_update Sample.Date_parse Sample.now Sample.lapsed_row
      (Sample.dashboard []) in
  ¬ premium_plan Sample.Date_parse Sample.now Sample.lapsed_row ∧
  isPremiumActive fetched = Null ∧ isPremiumActive fetched ≠ Bool false ∧
  isPremiumActive notified = Null ∧ isPremiumActive notified ≠ Bool false.
Proof.
  cbv zeta. split_and!.
  - intros (_ & _ & s & t & H & _). discriminate H.
  - vm_compute. reflexivity.
  - vm_compute. discriminate.
  - vm_compute. reflexivity.
  - vm_compute. discriminate.
Qed.

End DashboardFacts.

(** ** The script page *)

Module Step3Facts.

Import Step3.

(** *** The prompt *)

Lemma length_lit (s : string) : length (lit s) = String.length s.
Proof.
  unfold lit. rewrite length_fmap.
  induction s as [|a s IH]; cbn; [done | by rewrite IH].
Qed.

Lemma substring_of_head (x post : jsstring) : substring_of x (x ++ post).
Proof. exists [], post. done. Qed.

Lemma substring_of_skip (x p s : jsstring) :
  substring_of x s → substring_of x (p ++ s).
Proof.
  intros (pre & post & ->). exists (p ++ pre), post. by rewrite app_assoc.
Qed.

Ltac find_substring :=
  repeat first [ apply substring_of_head | apply substring_of_skip ].

(** [C3] The prompt.  For all strings (empty ones included) the prompt
    contains the job title verbatim; of the job description it contains
    the first 1500 code units and depends on nothing beyond them, and of
    the resume text the first 2000 and nothing beyond them: the prompt is
    the one built from the truncated fields, and its length is that of the
    fixed template (582) plus the title plus at most 1500 plus at most
    2000. *)
Theorem buildPrompt_contents (jobTitle jobDesc resumeText : jsstring) :
  let prompt := buildPrompt jobTitle jobDesc resumeText in
  substring_of jobTitle prompt ∧
  substring_of (take 1500 jobDesc) prompt ∧
  substring_of (take 2000 resumeText) prompt ∧
  prompt = buildPrompt jobTitle (take 1500 jobDesc) (take 2000 resumeText) ∧
  length prompt =
    582 + length jobTitle
    + (length jobDesc `min` 1500) + (length resumeText `min` 2000).
Proof.
  cbn zeta. unfold buildPrompt, slice0. split_and!.
  - find_substring.
  - find_substring.
  - find_substring.
  - rewrite !take_take, !Nat.min_id. reflexivity.
  - rewrite !length_app, !length_take, !length_lit.
    cbn [String.length length nl dq take]. lia.
Qed.

(** *** The handlers *)

Ltac unfold_page :=
  cbv [run mount generateIntroduction handleStartRecording handleTextChange
       callOpenAI functions_invoke mbind mret M_bind M_ret
       setIsGenerating setError setTeleprompterText setItem setIsRewriting
       showToast navigate emit modify gets getItem throw try_catch_finally
       default from_option id fst];
  cbn [teleprompterText isGenerating isRewriting error teleprompterSpeed
       localStorage trace].

Section Page.

Context {number : Type}.
Variable Number_toString : number → jsstring.
Variable TypeError_null : exn.
Variable invoke : list event → jsstring → invoke_result.

#[local] Abbreviation generate := (generateIntroduction TypeError_null invoke).

Lemma inputs_Some (st : state number) (t d r : jsstring) :
  inputs st = Some (t, d, r) ↔
  (localStorage st !! "careercast_jobTitle" = Some t ∧ t ≠ []) ∧
  (localStorage st !! "careercast_jobDescription" = Some d ∧ d ≠ []) ∧
  (localStorage st !! "resumeFullText" = Some r ∧ r ≠ []).
Proof.
  unfold inputs. rewrite <- !JSFacts.truthy_Str.
  destruct (localStorage st !! "careercast_jobTitle") as [t'|];
  destruct (localStorage st !! "careercast_jobDescription") as [d'|];
  destruct (localStorage st !! "resumeFullText") as [r'|];
  try (split; [done | intros ([? ?] & [? ?] & [? ?]); done]).
  destruct (truthy (Str t')) eqn:Ht, (truthy (Str d')) eqn:Hd,
           (truthy (Str r')) eqn:Hr; cbn [andb];
  (split; [intros [= <- <- <-]; done
          | intros ([[= <-] ?] & [[= <-] ?] & [[= <-] ?]); congruence]).
Qed.

Lemma inputs_None (st : state number) :
  localStorage st !! "careercast_jobTitle" = None ∨
  localStorage st !! "careercast_jobDescription" = None ∨
  localStorage st !! "resumeFullText" = None →
  inputs st = None.
Proof.
  unfold inputs. intros [-> | [-> | ->]]; [done | |].
  - by destruct (localStorage st !! "careercast_jobTitle").
  - by destruct (localStorage st !! "careercast_jobTitle"),
         (localStorage st !! "careercast_jobDescription").
Qed.

(** The generate action without its inputs. *)
Lemma generate_without_inputs (st : state number) :
  inputs st = None →
  run generate st =
  State (teleprompterText st) false false (Str msg_missing)
    (teleprompterSpeed st) (localStorage st)
    (trace st ++ [ShowToast msg_failed (lit "error")]).
Proof.
  unfold inputs. intros H. unfold_page.
  destruct (localStorage st !! "careercast_jobTitle") as [t|];
  destruct (localStorage st !! "careercast_jobDescription") as [d|];
  destruct (localStorage st !! "resumeFullText") as [r|];
  cbn [of_nullable] in *;
  try (destruct (truthy (Str t)); cbn [negb orb andb] in * );
  try (destruct (truthy (Str d)); cbn [negb orb andb] in * );
  try (destruct (truthy (Str r)); cbn [negb orb andb] in * );
  try discriminate; reflexivity.
Qed.

(** The generate action with its inputs: one call, and then the script is
    set and stored, or the error is shown. *)
Lemma generate_with_inputs (st : state number) (t d r : jsstring) :
  inputs st = Some (t, d, r) →
  run generate st =
  let prompt := buildPrompt t d r in
  let failed e :=
    State (teleprompterText st) false false
      (or_ (message e) (Str msg_went_wrong))
      (teleprompterSpeed st) (localStorage st)
      (trace st ++ [Invoke prompt; ShowToast msg_failed (lit "error")]) in
  match invoke (trace st) prompt with
  | Rejected e => failed e
  | Resolved _ (Some m) => failed (Error m)
  | Resolved None None => failed TypeError_null
  | Resolved (Some data) None =>
      let result := or_default (introduction data) msg_could_not in
      State result false false Null (teleprompterSpeed st)
        (<["teleprompterText" := result]> (localStorage st))
        (trace st ++ [Invoke prompt; SetItem "teleprompterText" result])
  end.
Proof.
  intros H. apply inputs_Some in H as ((Ht & Ht') & (Hd & Hd') & (Hr & Hr')).
  apply JSFacts.truthy_Str in Ht', Hd', Hr'.
  unfold_page. rewrite Ht, Hd, Hr. cbn [of_nullable default].
  rewrite Ht', Hd', Hr'. cbn [negb orb]. unfold_page.
  destruct (invoke (trace st) (buildPrompt t d r)) as [e | [data|] [m|]];
    unfold_page; rewrite <- ?app_assoc; reflexivity.
Qed.

Lemma invocations_app (tr1 tr2 : list event) :
  invocations (tr1 ++ tr2) = invocations tr1 ++ invocations tr2.
Proof. apply omap_app. Qed.

(** [C4] Missing prerequisites.  When any of the three keys (job title,
    job description, resume text) is absent from local storage, the
    generate action makes no call of the remote function and shows the
    missing-prerequisite message (with the failure toast); a call is made
    only when all three values are stored (and non-empty), and it is then
    one call, with the prompt built from them. *)
Theorem generate_requires_inputs (st : state number) :
  let st' := run generate st in
  (localStorage st !! "careercast_jobTitle" = None ∨
   localStorage st !! "careercast_jobDescription" = None ∨
   localStorage st !! "resumeFullText" = None →
   invocations (trace st') = invocations (trace st) ∧
   error st' = Str msg_missing ∧
   truthy (error st') = true ∧
   trace st' = trace st ++ [ShowToast msg_failed (lit "error")]) ∧
  (invocations (trace st') ≠ invocations (trace st) →
   ∃ t d r,
     (localStorage st !! "careercast_jobTitle" = Some t ∧ t ≠ []) ∧
     (localStorage st !! "careercast_jobDescription" = Some d ∧ d ≠ []) ∧
     (localStorage st !! "resumeFullText" = Some r ∧ r ≠ []) ∧
     invocations (trace st') = invocations (trace st) ++ [buildPrompt t d r]).
Proof.
  cbn zeta. split.
  - intros H. apply inputs_None in H.
    rewrite (generate_without_inputs st H). cbn [trace error].
    rewrite invocations_app. cbn. rewrite app_nil_r. done.
  - destruct (inputs st) as [[[t d] r]|] eqn:Hin.
    + intros _. exists t, d, r.
      rewrite (generate_with_inputs st t d r Hin).
      apply inputs_Some in Hin as (Ht & Hd & Hr).
      do 3 (split; [done |]).
      cbn zeta.
      destruct (invoke (trace st) (buildPrompt t d r)) as [e | [data|] [m|]];
        cbn [trace]; rewrite invocations_app; reflexivity.
    + rewrite (generate_without_inputs st Hin). cbn [trace].
      rewrite invocations_app. cbn. rewrite app_nil_r. done.
Qed.

(** [C5] Remote failure.  When the three inputs are stored and the call
    of the remote function fails (the promise rejects, an error comes back,
    or there is no data), the generate action leaves the teleprompter text
    and the stored script (all of local storage) as they were, shows an
    error message and the failure toast, and has made exactly one call: the
    trace grows by that call and the toast, nothing else. *)
Theorem generate_failure_keeps_script (st : state number) (t d r : jsstring) :
  inputs st = Some (t, d, r) →
  invoke_failed (invoke (trace st) (buildPrompt t d r)) →
  let st' := run generate st in
  teleprompterText st' = teleprompterText st ∧
  stored_script st' = stored_script st ∧
  localStorage st' = localStorage st ∧
  truthy (error st') = true ∧
  trace st' =
    trace st ++ [Invoke (buildPrompt t d r); ShowToast msg_failed (lit "error")] ∧
  invocations (trace st') = invocations (trace st) ++ [buildPrompt t d r] ∧
  isGenerating st' = false.
Proof.
  intros Hin Hfail. cbn zeta. rewrite (generate_with_inputs st t d r Hin).
  cbn zeta.
  assert (Hshown : ∀ e, truthy (or_ (message e) (Str msg_went_wrong)) = true).
  { intros e. unfold or_. destruct (truthy (message e)) eqn:He; done. }
  destruct (invoke (trace st) (buildPrompt t d r)) as [e | [data|] [m|]];
    try done; cbn zeta; unfold stored_script; cbn [teleprompterText localStorage
      error trace isGenerating]; rewrite invocations_app;
    split_and!; try done; apply Hshown.
Qed.

Lemma handleTextChange_run (v : jsstring) (st : state number) :
  run (handleTextChange v) st =
  State v (isGenerating st) (isRewriting st) (error st) (teleprompterSpeed st)
    (<["teleprompterText" := v]> (localStorage st))
    (trace st ++ [SetItem "teleprompterText" v]).
Proof. reflexivity. Qed.

(** [C7] Editing the script.  After each change event of a sequence of
    edits, the value stored under the script key is the field's value, and
    the field's value is the one the event carried. *)
Theorem edits_keep_storage_in_sync (st : state number) (vs : list jsstring) :
  Forall (λ s, stored_script s = Some (teleprompterText s)) (after_edits st vs) ∧
  teleprompterText <$> after_edits st vs = vs.
Proof.
  revert st. induction vs as [|v vs IH]; intros st; [done |].
  cbn [after_edits fmap list_fmap]. destruct (IH (run (handleTextChange v) st))
    as [IH1 IH2].
  split.
  - constructor; [| done]. rewrite handleTextChange_run.
    unfold stored_script. cbn [localStorage teleprompterText].
    apply lookup_insert_eq.
  - f_equal; done.
Qed.

Lemma inputs_with_stored_script (s : jsstring) (st : state number) :
  inputs (with_stored_script s st) = inputs st.
Proof.
  unfold inputs, with_stored_script. cbn [localStorage].
  rewrite !lookup_insert_ne by done. done.
Qed.

(** The generate action does not read the saved script. *)
Lemma generate_ignores_stored_script (s : jsstring) (st : state number) :
  let st1 := run generate st in
  let st2 := run generate (with_stored_script s st) in
  teleprompterText st2 = teleprompterText st1 ∧
  error st2 = error st1 ∧
  trace st2 = trace st1.
Proof.
  cbn zeta. destruct (inputs st) as [[[t d] r]|] eqn:Hin.
  - rewrite (generate_with_inputs st t d r Hin).
    rewrite (generate_with_inputs (with_stored_script s st) t d r)
      by (by rewrite inputs_with_stored_script).
    cbn zeta. cbn [with_stored_script trace teleprompterText isGenerating
      isRewriting error teleprompterSpeed localStorage].
    destruct (invoke (trace st) (buildPrompt t d r)) as [e | [data|] [m|]];
      done.
  - rewrite (generate_without_inputs st Hin).
    rewrite (generate_without_inputs (with_stored_script s st))
      by (by rewrite inputs_with_stored_script).
    done.
Qed.

Lemma mount_reuse (st : state number) (s : jsstring) :
  stored_script st = Some s → 10 < length s →
  run (mount TypeError_null invoke) st =
  State s (isGenerating st) (isRewriting st) (error st) (teleprompterSpeed st)
    (localStorage st) (trace st).
Proof.
  unfold stored_script. intros Hs Hlen. unfold_page. rewrite Hs.
  cbn [of_nullable truthy].
  rewrite bool_decide_eq_false_2 by (intros ->; cbn in Hlen; lia).
  rewrite bool_decide_eq_true_2 by done. reflexivity.
Qed.

Lemma mount_no_reuse (st : state number) :
  (∀ s, stored_script st = Some s → length s ≤ 10) →
  run (mount TypeError_null invoke) st =
  if truthy (of_nullable (localStorage st !! "careercast_jobTitle"))
  then run generate st
  else State msg_placeholder (isGenerating st) (isRewriting st) (Str msg_step1)
         (teleprompterSpeed st) (localStorage st) (trace st).
Proof.
  unfold stored_script. intros Hshort.
  cbv [run mount mbind M_bind getItem gets].
  destruct (localStorage st !! "teleprompterText") as [s|] eqn:Hs.
  - specialize (Hshort s eq_refl).
    cbn [default from_option id]. unfold id.
    rewrite (bool_decide_eq_false_2 (10 < length s)) by lia.
    rewrite andb_false_r.
    destruct (truthy (of_nullable (localStorage st !! "careercast_jobTitle")));
      reflexivity.
  - cbn [of_nullable truthy andb].
    destruct (truthy (of_nullable (localStorage st !! "careercast_jobTitle")));
      reflexivity.
Qed.

Lemma generate_attempted (st : state number) :
  generation_attempted st (run generate st).
Proof.
  unfold generation_attempted.
  destruct (inputs st) as [[[t d] r]|] eqn:Hin.
  - rewrite (generate_with_inputs st t d r Hin). cbn zeta.
    destruct (invoke (trace st) (buildPrompt t d r)) as [e | [data|] [m|]];
      cbn [trace isGenerating]; rewrite invocations_app; done.
  - rewrite (generate_without_inputs st Hin). done.
Qed.

(** [C8] The mount effect and the saved script, as amended.  A saved
    script is reused (the text is set to it; no call, no toast, no write)
    when it is longer than 10 code units.  When it has 10 code units or
    fewer, or there is none, it is ignored.  With a non-empty job title
    stored, generation is attempted: the remote function is called with the
    prompt of the stored inputs, or the missing-prerequisite error is
    shown, and what the page then shows does not depend on the short saved
    script.  With no job title stored, or with an empty one, the page shows
    the step-1 error and the placeholder text and makes no call. *)
Theorem mount_script_threshold (st : state number) :
  let st' := run (mount TypeError_null invoke) st in
  let title := localStorage st !! "careercast_jobTitle" in
  (∀ s, stored_script st = Some s → 10 < length s →
     teleprompterText st' = s ∧ trace st' = trace st ∧
     localStorage st' = localStorage st ∧ error st' = error st) ∧
  (stored_script st = None ∨
   (∃ s, stored_script st = Some s ∧ length s ≤ 10) →
   (∀ t, title = Some t → t ≠ [] →
      generation_attempted st st' ∧
      st' = run generate st ∧
      ∀ s', length s' ≤ 10 →
        let st2 := run (mount TypeError_null invoke) (with_stored_script s' st) in
        teleprompterText st2 = teleprompterText st' ∧
        error st2 = error st' ∧ trace st2 = trace st') ∧
   (title = None ∨ title = Some [] → placeholder_shown st st')).
Proof.
  cbn zeta. split.
  - intros s Hs Hlen. rewrite (mount_reuse st s Hs Hlen). done.
  - intros Hsaved.
    assert (Hshort : ∀ s, stored_script st = Some s → length s ≤ 10).
    { intros s Hs. destruct Hsaved as [Hnone | (s0 & Hs0 & Hlen)].
      - congruence.
      - rewrite Hs0 in Hs. injection Hs as <-. done. }
    rewrite (mount_no_reuse st Hshort). split.
    + intros t Ht Hne. rewrite Ht. cbn [of_nullable].
      apply JSFacts.truthy_Str in Hne. rewrite Hne.
      split; [apply generate_attempted |]. split; [done |].
      intros s' Hs'. rewrite mount_no_reuse; cycle 1.
      { intros s. unfold stored_script, with_stored_script. cbn [localStorage].
        rewrite lookup_insert_eq. intros [= <-]. done. }
      cbn [with_stored_script localStorage].
      rewrite lookup_insert_ne by done. rewrite Ht. cbn [of_nullable].
      rewrite Hne. apply generate_ignores_stored_script.
    + intros [-> | ->]; done.
Qed.

Lemma start_recording_run (st : state number) :
  run (handleStartRecording Number_toString) st =
  if negb (truthy (Str (teleprompterText st)))
     || includes (teleprompterText st) (lit "Please go back")
  then
    State (teleprompterText st) (isGenerating st) (isRewriting st) (error st)
      (teleprompterSpeed st) (localStorage st)
      (trace st ++ [ShowToast msg_wait (lit "warning")])
  else
    State (teleprompterText st) (isGenerating st) (isRewriting st) (error st)
      (teleprompterSpeed st)
      (<["teleprompterSpeed" := Number_toString (teleprompterSpeed st)]>
         (<["teleprompterText" := teleprompterText st]> (localStorage st)))
      (trace st ++
       [SetItem "teleprompterText" (teleprompterText st);
        SetItem "teleprompterSpeed" (Number_toString (teleprompterSpeed st));
        Navigate (lit "/record")]).
Proof.
  cbv [run handleStartRecording mbind M_bind gets].
  destruct (negb (truthy (Str (teleprompterText st)))
            || includes (teleprompterText st) (lit "Please go back")).
  - reflexivity.
  - unfold_page. rewrite <- !app_assoc. reflexivity.
Qed.

Lemma start_recording_allowed (text : jsstring) :
  negb (truthy (Str text)) || includes text (lit "Please go back") = false ↔
  text ≠ [] ∧ ¬ substring_of (lit "Please go back") text.
Proof.
  rewrite orb_false_iff, negb_false_iff, JSFacts.truthy_Str,
    JSFacts.includes_false. done.
Qed.

(** [C10] Start recording.  The action navigates to the recording view if
    and only if the teleprompter text is non-empty and does not contain
    "Please go back", which the placeholder of the mount effect does
    contain.  When it navigates it has first written the script text and
    then the playback speed's string to local storage; when it is blocked
    it shows the warning toast and changes neither local storage nor a
    state cell. *)
Theorem start_recording_gate (st : state number) :
  let text := teleprompterText st in
  let speed := Number_toString (teleprompterSpeed st) in
  let st' := run (handleStartRecording Number_toString) st in
  let allowed := text ≠ [] ∧ ¬ substring_of (lit "Please go back") text in
  (allowed ↔
   trace st' = trace st ++ [SetItem "teleprompterText" text;
                            SetItem "teleprompterSpeed" speed;
                            Navigate (lit "/record")]) ∧
  (allowed ↔
   localStorage st' =
     <["teleprompterSpeed" := speed]>
       (<["teleprompterText" := text]> (localStorage st)) ∧
   In (Navigate (lit "/record")) (drop (length (trace st)) (trace st'))) ∧
  (¬ allowed ↔
   st' = State text (isGenerating st) (isRewriting st) (error st)
           (teleprompterSpeed st) (localStorage st)
           (trace st ++ [ShowToast msg_wait (lit "warning")])) ∧
  substring_of (lit "Please go back") msg_placeholder.
Proof.
  cbn zeta. rewrite start_recording_run.
  pose proof (start_recording_allowed (teleprompterText st)) as Hallowed.
  destruct (negb (truthy (Str (teleprompterText st)))
            || includes (teleprompterText st) (lit "Please go back")) eqn:Hb;
    cbn [trace localStorage]; rewrite <- Hallowed; split_and!.
  - split; [done |]. intros H. apply app_inv_head in H. discriminate.
  - split; [done |]. intros [_ H]. rewrite drop_app_length in H.
    destruct H as [H | []]. discriminate.
  - split; [done |]. intros _. discriminate.
  - apply JSFacts.includes_spec. reflexivity.
  - done.
  - split; [| done]. intros _. split; [done |].
    rewrite drop_app_length. cbn. auto.
  - split; [done |]. intros H. apply (f_equal trace) in H. cbn [trace] in H.
    apply app_inv_head in H. discriminate.
  - apply JSFacts.includes_spec. reflexivity.
Qed.

End Page.

(** The missing-prerequisite case on the sample page over an empty
    storage, and the single call over a full one. *)
Lemma generate_requires_inputs_witness :
  (let st := Sample.page ∅ in
   let st' := run (generateIntroduction Sample.TypeError_null
                     Sample.working_invoke) st in
   invocations (trace st') = invocations (trace st) ∧
   error st' = Str msg_missing ∧
   truthy (error st') = true ∧
   trace st' = trace st ++ [ShowToast msg_failed (lit "error")]) ∧
  (let st := Sample.page Sample.full_storage in
   let st' := run (generateIntroduction Sample.TypeError_null
                     Sample.working_invoke) st in
   ∃ t d r,
     (localStorage st !! "careercast_jobTitle" = Some t ∧ t ≠ []) ∧
     (localStorage st !! "careercast_jobDescription" = Some d ∧ d ≠ []) ∧
     (localStorage st !! "resumeFullText" = Some r ∧ r ≠ []) ∧
     invocations (trace st') = invocations (trace st) ++ [buildPrompt t d r]).
Proof.
  split.
  - apply (generate_requires_inputs Sample.TypeError_null Sample.working_invoke
             (Sample.page ∅)).
    left. reflexivity.
  - apply (generate_requires_inputs Sample.TypeError_null Sample.working_invoke
             (Sample.page Sample.full_storage)).
    vm_compute. discriminate.
Defined.

(** A failing remote function on the sample page over a full storage. *)
Lemma generate_failure_keeps_script_witness :
  let st := Sample.page Sample.full_storage in
  let prompt :=
    buildPrompt (lit "Nurse") (lit "Care for patients") (lit "RN, five years") in
  inputs st
  = Some (lit "Nurse", lit "Care for patients", lit "RN, five years") ∧
  invoke_failed (Sample.failing_invoke (trace st) prompt) ∧
  let st' := run (generateIntroduction Sample.TypeError_null
                    Sample.failing_invoke) st in
  teleprompterText st' = teleprompterText st ∧
  stored_script st' = stored_script st ∧
  localStorage st' = localStorage st ∧
  truthy (error st') = true ∧
  trace st' = trace st ++ [Invoke prompt; ShowToast msg_failed (lit "error")] ∧
  invocations (trace st') = invocations (trace st) ++ [prompt] ∧
  isGenerating st' = false.
Proof.
  cbv zeta.
  assert (Hin : inputs (Sample.page Sample.full_storage)
                = Some (lit "Nurse", lit "Care for patients",
                        lit "RN, five years")) by (vm_compute; reflexivity).
  assert (Hfail : invoke_failed
            (Sample.failing_invoke (trace (Sample.page Sample.full_storage))
               (buildPrompt (lit "Nurse") (lit "Care for patients")
                  (lit "RN, five years")))) by (simpl; exact I).
  split; [exact Hin |]. split; [exact Hfail |].
  exact (generate_failure_keeps_script Sample.TypeError_null
           Sample.failing_invoke (Sample.page Sample.full_storage)
           (lit "Nurse") (lit "Care for patients") (lit "RN, five years")
           Hin Hfail).
Defined.

(** The mount effect on sample pages: a saved script of 11 code units is
    reused; over a full storage with a saved script of 5 code units the
    page attempts generation. *)
Lemma mount_script_threshold_witness :
  (let st := Sample.page (<["teleprompterText" := lit "Hello there"]> ∅) in
   let st' := run (mount Sample.TypeError_null Sample.working_invoke) st in
   teleprompterText st' = lit "Hello there" ∧ trace st' = trace st ∧
   localStorage st' = localStorage st ∧ error st' = error st) ∧
  (let st :=
     Sample.page (<["teleprompterText" := lit "short"]> Sample.full_storage) in
   let st' := run (mount Sample.TypeError_null Sample.working_invoke) st in
   (∃ s, stored_script st = Some s ∧ length s ≤ 10) ∧
   generation_attempted st st' ∧
   st' = run (generateIntroduction Sample.TypeError_null
                Sample.working_invoke) st).
Proof.
  split.
  - apply (mount_script_threshold Sample.TypeError_null Sample.working_invoke
             (Sample.page (<["teleprompterText" := lit "Hello there"]> ∅))).
    + reflexivity.
    + vm_compute. lia.
  - cbv zeta.
    assert (Hshort :
      ∃ s, stored_script
             (Sample.page
                (<["teleprompterText" := lit "short"]> Sample.full_storage))
           = Some s ∧ length s ≤ 10).
    { exists (lit "short"). split; [reflexivity | vm_compute; lia]. }
    split; [exact Hshort |].
    destruct (proj1 (proj2 (mount_script_threshold Sample.TypeError_null
                Sample.working_invoke
                (Sample.page
                   (<["teleprompterText" := lit "short"]> Sample.full_storage)))
                (or_intror Hshort))
              (lit "Nurse")) as (Hattempt & Hgen & _).
    + reflexivity.
    + discriminate.
    + split; [exact Hattempt | exact Hgen].
Defined.

(** What that mount does on the sample page with the short saved script:
    one call with the prompt of the stored inputs, and the returned script
    replaces the saved one on screen and in storage. *)
Example mount_short_script_sample :
  let st :=
    Sample.page (<["teleprompterText" := lit "short"]> Sample.full_storage) in
  let st' := run (mount Sample.TypeError_null Sample.working_invoke) st in
  invocations (trace st')
  = [buildPrompt (lit "Nurse") (lit "Care for patients") (lit "RN, five years")] ∧
  teleprompterText st' = lit "Hello, I am a nurse." ∧
  stored_script st' = Some (lit "Hello, I am a nurse.").
Proof. cbv zeta. split_and!; vm_compute; reflexivity. Qed.

(** A stored job title does not always lead to generation: with the empty
    string stored as job title and a saved script of 5 code units, the
    mount effect attempts no generation and shows the placeholder. *)
Lemma mount_empty_title_counterexample :
  let st :=
    Sample.page (<["careercast_jobTitle" := []]>
                   (<["teleprompterText" := lit "short"]> ∅)) in
  let st' := run (mount Sample.TypeError_null Sample.working_invoke) st in
  stored_script st = Some (lit "short") ∧ length (lit "short") ≤ 10 ∧
  localStorage st !! "careercast_jobTitle" = Some [] ∧
  ¬ generation_attempted st st' ∧
  placeholder_shown st st' ∧
  trace st' = [].
Proof.
  cbv zeta. split_and!.
  - reflexivity.
  - vm_compute. lia.
  - reflexivity.
  - intros [_ H]. vm_compute in H. destruct H as [H _]. discriminate H.
  - split_and!; reflexivity.
  - reflexivity.
Qed.

(** The start-recording action on the placeholder text and on a script. *)
Example start_recording_samples :
  let blocked :=
    run (handleStartRecording Sample.Number_toString)
      (State msg_placeholder false false (Str msg_step1) tt ∅ []) in
  let started :=
    run (handleStartRecording Sample.Number_toString)
      (State (lit "Hello, I am a nurse.") false false Null tt ∅ []) in
  trace blocked = [ShowToast msg_wait (lit "warning")] ∧
  trace started =
    [SetItem "teleprompterText" (lit "Hello, I am a nurse.");
     SetItem "teleprompterSpeed" (lit "1");
     Navigate (lit "/record")].
Proof. split; vm_compute; reflexivity. Qed.

(** A successful generation on the sample page: the script is set and
    stored. *)
Example generate_success_sample :
  let st' := run (generateIntroduction Sample.TypeError_null
                    Sample.working_invoke) (Sample.page Sample.full_storage) in
  teleprompterText st' = lit "Hello, I am a nurse." ∧
  stored_script st' = Some (lit "Hello, I am a nurse.").
Proof. split; vm_compute; reflexivity. Qed.

End Step3Facts.

(** ** The dashboard: loading, rendering and the popup *)

Module DashboardMore.

Import Dashboard.

Lemma fetchCareerCasts_failed (user : jsstring) (res : rows_result)
    (st : state) :
  rows_failed res → fetchCareerCasts (Some user) res st = set_loading false st.
Proof. destruct res as [e | data [e|]]; done. Qed.

Lemma handleNewCast_few_rows (st : state) :
  length (careerCasts st) < 3 → handleNewCast st = navigate (lit "/step1") st.
Proof.
  intros Hfew. unfold handleNewCast.
  destruct (truthy (isPremiumActive st)); [done |].
  rewrite bool_decide_eq_false_2; [done |].
  unfold completedRecordings.
  pose proof (length_filter
    (λ c, strict_eq (of_nullable (status c)) (Str (lit "recorded")) = true)
    (careerCasts st)). lia.
Qed.

(** [X1] What the card shows after the rows fetch.  For a signed-in user
    the spinner is gone whatever the outcome: the rows shown are the
    fetched ones on success ([null] data counts as no rows) and the ones
    held before on failure, and without rows the empty state is shown.
    Without a signed-in user nothing is fetched and the spinner of the
    initial state stays. *)
Theorem fetchCareerCasts_body (user : jsstring) (res : rows_result)
    (st : state) :
  let rows :=
    match res with
    | RowsResolved data None => default [] data
    | _ => careerCasts st
    end in
  render_body (fetchCareerCasts (Some user) res st)
  = (if bool_decide (rows = []) then EmptyState else Table rows) ∧
  render_body (fetchCareerCasts None res initial) = Spinner.
Proof.
  cbn zeta. split; [| done].
  assert (Hbody : ∀ rows st0,
    render_body (set_loading false (set_careerCasts rows st0))
    = if bool_decide (rows = []) then EmptyState else Table rows).
  { intros rows st0. unfold render_body. cbn.
    destruct rows; done. }
  destruct res as [e | [rows|] [e|]]; cbn [fetchCareerCasts fetchCareerCasts_try].
  - unfold render_body. cbn. destruct (careerCasts st); done.
  - unfold render_body. cbn. destruct (careerCasts st); done.
  - apply Hbody.
  - unfold render_body. cbn. destruct (careerCasts st); done.
  - apply Hbody.
Qed.

(** [X2] The submission limit fails open on a failed rows fetch.  When
    the rows fetch fails before any rows were loaded, the page shows the
    empty state and the new-submission action navigates to the first step
    whatever the plan flag is: the limit counts loaded rows only. *)
Theorem rows_failure_opens_gate (user : jsstring) (res : rows_result)
    (st : state) :
  rows_failed res →
  careerCasts st = [] →
  let st' := fetchCareerCasts (Some user) res st in
  render_body st' = EmptyState ∧
  handleNewCast st' = navigate (lit "/step1") st' ∧
  popup_shown (handleNewCast st') = popup_shown st.
Proof.
  intros Hfail Hnone. cbn zeta. rewrite (fetchCareerCasts_failed _ _ _ Hfail).
  assert (Hnav : handleNewCast (set_loading false st)
                 = navigate (lit "/step1") (set_loading false st)).
  { apply handleNewCast_few_rows. cbn. rewrite Hnone. cbn. lia. }
  rewrite Hnav. split_and!; [| done | done].
  unfold render_body. cbn. rewrite Hnone. done.
Qed.

Lemma getBadge_text (status : option jsstring) :
  badge_text (getBadge (of_nullable status))
  = if bool_decide (status = Some (lit "recorded")) then lit " Recorded"
    else if bool_decide (status = Some (lit "ready")) then lit " Resume Uploaded"
    else lit " Draft".
Proof.
  unfold getBadge.
  destruct (strict_eq (of_nullable status) (Str (lit "recorded"))) eqn:H1.
  { apply DashboardFacts.strict_eq_lit in H1.
    rewrite bool_decide_eq_true_2 by done. done. }
  rewrite bool_decide_eq_false_2; cycle 1.
  { intros H. apply DashboardFacts.strict_eq_lit in H. congruence. }
  destruct (strict_eq (of_nullable status) (Str (lit "ready"))) eqn:H2.
  { apply DashboardFacts.strict_eq_lit in H2.
    rewrite bool_decide_eq_true_2 by done. done. }
  rewrite bool_decide_eq_false_2; [done |].
  intros H. apply DashboardFacts.strict_eq_lit in H. congruence.
Qed.

Ltac badge_case :=
  split; intros Heq;
  first
    [ done
    | congruence
    | vm_compute in Heq; discriminate
    | destruct Heq; congruence
    | match goal with
      | H : status _ = _ |- _ =>
          rewrite H in Heq; vm_compute in Heq; discriminate
      end ].

(** [X3] The badge and the limit agree.  The text of a row's badge (after
    its icon, leading blank included) is " Recorded" exactly when the
    status is "recorded", " Resume Uploaded" exactly when it is "ready",
    and " Draft" for every other status, [null] included; the rows counted
    against the free limit are exactly the rows whose badge reads
    " Recorded". *)
Theorem badge_matches_limit (st : state) (c : cast) :
  let text c := badge_text (getBadge (of_nullable (status c))) in
  (text c = lit " Recorded" ↔ status c = Some (lit "recorded")) ∧
  (text c = lit " Resume Uploaded" ↔ status c = Some (lit "ready")) ∧
  (text c = lit " Draft" ↔
   status c ≠ Some (lit "recorded") ∧ status c ≠ Some (lit "ready")) ∧
  completedRecordings st
  = length (filter (λ c, text c = lit " Recorded") (careerCasts st)).
Proof.
  cbn zeta.
  assert (Hrec : ∀ c0, badge_text (getBadge (of_nullable (status c0)))
                       = lit " Recorded" ↔ status c0 = Some (lit "recorded")).
  { intros c0. rewrite getBadge_text. repeat case_bool_decide; badge_case. }
  split_and!.
  - apply Hrec.
  - rewrite getBadge_text. repeat case_bool_decide; badge_case.
  - rewrite getBadge_text. repeat case_bool_decide; badge_case.
  - rewrite DashboardFacts.completedRecordings_spec.
    induction (careerCasts st) as [|c0 cs IH]; [done |].
    rewrite !filter_cons.
    destruct (decide (status c0 = Some (lit "recorded"))) as [H|H];
    destruct (decide (badge_text (getBadge (of_nullable (status c0)))
                      = lit " Recorded")) as [H'|H'];
    cbn [length]; try congruence.
    + apply Hrec in H. done.
    + apply Hrec in H'. done.
Qed.

Section Plan.

Variable Date_parse : jsstring → option Z.
Variable TypeError_null : exn.

Lemma plan_update_flag (now : Z) (p : profile) (st : state) :
  isPremiumActive (on_plan_update Date_parse now p st)
  = fetchPlan_active Date_parse now p.
Proof. reflexivity. Qed.

Lemma premium_plan_renews (now : Z) (p : profile) :
  premium_plan Date_parse now p → truthy (of_nullable (plan_renews_at p)) = true.
Proof.
  intros (_ & _ & s & t & -> & Hne & _). by apply JSFacts.truthy_Str.
Qed.

(** [X4] The plan line of the header.  After a row has been delivered, by
    the fetch or by the realtime handler, the header shows the premium line
    (with the row's renewal timestamp) exactly when the row is a running
    premium plan, and the free-plan line otherwise; after a fetch that
    failed it shows the free-plan line, whatever was shown before. *)
Theorem plan_banner_iff (user : jsstring) (now : Z) (p : profile)
    (st : state) :
  let fetched :=
    fetchPlan Date_parse TypeError_null (Some user) now
      (Resolved (Some p) None) st in
  let notified := on_plan_update Date_parse now p st in
  (plan_banner fetched = PremiumUntil (of_nullable (plan_renews_at p)) ↔
   premium_plan Date_parse now p) ∧
  (plan_banner fetched = FreePlan ↔ ¬ premium_plan Date_parse now p) ∧
  (plan_banner notified = PremiumUntil (of_nullable (plan_renews_at p)) ↔
   premium_plan Date_parse now p) ∧
  (plan_banner notified = FreePlan ↔ ¬ premium_plan Date_parse now p) ∧
  (∀ e, plan_banner (fetchPlan Date_parse TypeError_null (Some user) now
                       (Rejected e) st) = FreePlan) ∧
  (∀ data e, plan_banner (fetchPlan Date_parse TypeError_null (Some user) now
                            (Resolved data (Some e)) st) = FreePlan) ∧
  plan_banner (fetchPlan Date_parse TypeError_null (Some user) now
                 (Resolved None None) st) = FreePlan.
Proof.
  cbn zeta.
  assert (Hrow : ∀ st0,
    isPremiumActive st0 = fetchPlan_active Date_parse now p →
    planRenewsAt st0 = of_nullable (plan_renews_at p) →
    (plan_banner st0 = PremiumUntil (of_nullable (plan_renews_at p)) ↔
     premium_plan Date_parse now p) ∧
    (plan_banner st0 = FreePlan ↔ ¬ premium_plan Date_parse now p)).
  { intros st0 Hflag Hrenew. unfold plan_banner, and_.
    rewrite Hflag, Hrenew.
    destruct (truthy (fetchPlan_active Date_parse now p)) eqn:Hactive.
    - apply DashboardFacts.active_truthy, DashboardFacts.active_true_iff
        in Hactive.
      rewrite (premium_plan_renews now p Hactive). split; split; done.
    - assert (Hno : ¬ premium_plan Date_parse now p).
      { intros H. apply DashboardFacts.active_true_iff in H.
        rewrite H in Hactive. done. }
      rewrite Hactive. split; split; done. }
  destruct (Hrow (fetchPlan Date_parse TypeError_null (Some user) now
                    (Resolved (Some p) None) st)) as [H1 H2]; [done | done |].
  destruct (Hrow (on_plan_update Date_parse now p st)) as [H3 H4];
    [done | done |].
  split_and!; done.
Qed.

(** [X5] The upgrade prompt follows the plan.  After a realtime plan
    update the prompt is on screen exactly when it had been opened and the
    delivered row is not a running premium plan: an upgrade hides an open
    prompt, and since no update closes it, a later lapse brings it back
    without a click.  The update changes neither the rows, nor the
    [showPricingPopup] cell, nor the navigation log. *)
Theorem popup_follows_plan (now : Z) (p : profile) (st : state) :
  let st' := on_plan_update Date_parse now p st in
  (popup_shown st' = true ↔
   showPricingPopup st = true ∧ ¬ premium_plan Date_parse now p) ∧
  showPricingPopup st' = showPricingPopup st ∧
  careerCasts st' = careerCasts st ∧
  navigations st' = navigations st.
Proof.
  cbn zeta. split; [| done].
  unfold popup_shown. rewrite plan_update_flag.
  rewrite andb_true_iff, negb_true_iff.
  change (showPricingPopup (on_plan_update Date_parse now p st))
    with (showPricingPopup st).
  rewrite <- DashboardFacts.active_true_iff, <- DashboardFacts.active_truthy.
  destruct (truthy (fetchPlan_active Date_parse now p)); split;
    intros [? ?]; split; done.
Qed.

(** [X6] A late fetch wins over an earlier update, and the two fetches do
    not interfere.  The flag after a fetch is the flag the fetch computes,
    also when a realtime update was handled just before it, so a failed
    fetch switches off a premium flag the update had set.  The plan fetch
    and the rows fetch write different cells: they give the same state in
    either order, and so do a plan update and the rows fetch. *)
Theorem fetches_compose (user : option jsstring) (u : jsstring) (now now' : Z)
    (res : query_result) (rows : rows_result) (p : profile) (st : state) :
  isPremiumActive
    (fetchPlan Date_parse TypeError_null (Some u) now res
       (on_plan_update Date_parse now' p st))
  = isPremiumActive (fetchPlan Date_parse TypeError_null (Some u) now res st) ∧
  fetchPlan Date_parse TypeError_null user now res
    (fetchCareerCasts user rows st)
  = fetchCareerCasts user rows
      (fetchPlan Date_parse TypeError_null user now res st) ∧
  on_plan_update Date_parse now p (fetchCareerCasts user rows st)
  = fetchCareerCasts user rows (on_plan_update Date_parse now p st).
Proof.
  split_and!.
  - destruct res as [e | [q|] [e|]]; done.
  - destruct user as [v|]; [| done].
    destruct res as [e | [q|] [e|]], rows as [e' | data [e'|]]; done.
  - destruct user as [v|]; [| done].
    destruct rows as [e' | data [e'|]]; done.
Qed.

End Plan.

(** [X7] Closing the upgrade prompt.  When a free user with three or more
    recorded rows, whose prompt is closed, asks for a new submission, the
    prompt opens; asking again changes nothing more; closing the prompt
    gives back the state before the click; and "Upgrade Now" closes the
    prompt and navigates to billing, and nowhere else. *)
Theorem popup_round_trip (st : state) :
  truthy (isPremiumActive st) = false →
  3 ≤ length (filter (λ c, status c = Some (lit "recorded")) (careerCasts st)) →
  showPricingPopup st = false →
  let opened := handleNewCast st in
  popup_shown opened = true ∧
  handleNewCast opened = opened ∧
  handleClosePricingPopup opened = st ∧
  upgrade_onClick opened = navigate (lit "/billing") st ∧
  popup_shown (upgrade_onClick opened) = false.
Proof.
  intros Hfree Hcount Hclosed. rewrite <- DashboardFacts.completedRecordings_spec
    in Hcount.
  assert (Hopen : handleNewCast st = set_showPricingPopup true st).
  { unfold handleNewCast. rewrite Hfree.
    rewrite bool_decide_eq_true_2 by done. done. }
  cbn zeta. rewrite Hopen.
  assert (Hagain : handleNewCast (set_showPricingPopup true st)
                   = set_showPricingPopup true st).
  { unfold handleNewCast. cbn [set_showPricingPopup isPremiumActive].
    rewrite Hfree.
    change (completedRecordings (set_showPricingPopup true st))
      with (completedRecordings st).
    rewrite bool_decide_eq_true_2 by done. done. }
  split_and!.
  - unfold popup_shown. cbn. rewrite Hfree. done.
  - exact Hagain.
  - destruct st. cbn in *. subst. done.
  - destruct st. cbn in *. subst. done.
  - unfold popup_shown. cbn. apply andb_false_r.
Qed.

(** [X8] Only the first recording counts.  On a row with recordings, the
    video cell, the "View" button and the player all go by the first
    recording alone.  When its reference is absent or empty the row shows
    no video, "View" is disabled and a click on the cell does nothing,
    whatever the later recordings hold; when it is a non-empty reference
    the cell is a play button, and clicking it selects that reference and
    does not navigate. *)
Theorem first_recording_only (c : cast) (r : recording) (rs : list recording)
    (st : state) :
  recordings c = Some (r :: rs) →
  (storage_path r = None ∨ storage_path r = Some [] →
   row_video_cell c = NoVideo ∧ view_disabled c = true ∧
   click_video c st = st) ∧
  (∀ v, storage_path r = Some v → v ≠ [] →
   row_video_cell c = PlayButton (Str v) ∧
   selectedVideo (click_video c st) = Some v ∧
   navigations (click_video c st) = navigations st).
Proof.
  intros Hrec.
  assert (Hvideo : row_video c = or_ (of_nullable (storage_path r)) Null).
  { unfold row_video. rewrite Hrec. done. }
  split.
  - intros Hpath.
    assert (Hnull : row_video c = Null).
    { rewrite Hvideo. destruct Hpath as [-> | ->]; done. }
    unfold row_video_cell, click_video, row_video_cell, view_disabled, row_both,
      and_.
    rewrite Hnull. cbn [truthy].
    destruct (truthy (of_nullable (resume_path c))) eqn:Hres; [done |].
    rewrite Hres. done.
  - intros v Hv Hne. apply JSFacts.truthy_Str in Hne.
    assert (Hstr : row_video c = Str v).
    { rewrite Hvideo, Hv. unfold or_. cbn [of_nullable]. rewrite Hne. done. }
    unfold click_video, row_video_cell. rewrite Hstr, Hne. done.
Qed.

(** [X18] The cells of a row and its "View" button.  The title cell is
    never the empty string: it is the row's job title whenever that is a
    non-empty string (a title made of blanks is shown as it is) and
    "Untitled" exactly when the title is absent, empty or itself
    "Untitled".  The "View" button is enabled exactly on the rows whose
    resume cell is a link and whose video cell is a play button, and the
    link and the button carry the row's resume reference and its first
    recording's reference. *)
Theorem row_cells (c : cast) :
  (∃ s, title_cell c = Str s ∧ s ≠ []) ∧
  (∀ t, job_title c = Some t → t ≠ [] → title_cell c = Str t) ∧
  (title_cell c = Str (lit "Untitled") ↔
   job_title c = None ∨ job_title c = Some [] ∨
   job_title c = Some (lit "Untitled")) ∧
  (view_disabled c = false ↔
   row_resume_cell c = ResumeLink (of_nullable (resume_path c)) ∧
   row_video_cell c = PlayButton (row_video c)) ∧
  (row_resume_cell c = NoResume ∨ row_video_cell c = NoVideo ↔
   view_disabled c = true).
Proof.
  split_and!.
  - unfold title_cell, or_.
    destruct (truthy (of_nullable (job_title c))) eqn:H.
    + apply JSFacts.truthy_of_nullable in H as (s & -> & Hs). by exists s.
    + by exists (lit "Untitled").
  - unfold title_cell, or_. intros t -> Ht. apply JSFacts.truthy_Str in Ht.
    cbn [of_nullable]. by rewrite Ht.
  - unfold title_cell, or_.
    destruct (job_title c) as [t|]; cbn [of_nullable]; cycle 1.
    { split; [by left | done]. }
    destruct (truthy (Str t)) eqn:Ht.
    + apply JSFacts.truthy_Str in Ht. split.
      * intros [= ->]. by right; right.
      * intros [H | [[= ->] | [= ->]]]; done.
    + assert (t = []) as -> by (destruct t; [done | discriminate]).
      split; [by right; left | done].
  - unfold view_disabled. rewrite negb_false_iff, DashboardFacts.row_both_truthy.
    rewrite <- DashboardFacts.row_video_truthy.
    unfold has_resume. rewrite <- JSFacts.truthy_of_nullable.
    unfold row_resume_cell, row_video_cell.
    destruct (truthy (of_nullable (resume_path c))),
             (truthy (row_video c)); split; intros [? ?]; done.
  - unfold view_disabled. rewrite negb_true_iff.
    assert (Hboth : truthy (row_both c) = true ↔
              truthy (of_nullable (resume_path c)) = true ∧
              truthy (row_video c) = true).
    { rewrite DashboardFacts.row_both_truthy,
        <- DashboardFacts.row_video_truthy.
      unfold has_resume. by rewrite <- JSFacts.truthy_of_nullable. }
    unfold row_resume_cell, row_video_cell.
    destruct (truthy (row_both c)) eqn:Hb.
    + destruct Hboth as [Hboth _]. destruct (Hboth eq_refl) as [-> ->].
      split; [intros [? | ?]; done | done].
    + split; [done |]. intros _.
      destruct (truthy (of_nullable (resume_path c))) eqn:Hr; [| by left].
      destruct (truthy (row_video c)) eqn:Hv; [| by right].
      destruct Hboth as [_ Hboth]. specialize (Hboth (conj eq_refl eq_refl)).
      congruence.
Qed.

(** The failed rows fetch on the initial dashboard. *)
Lemma rows_failure_opens_gate_witness :
  let st' := fetchCareerCasts (Some Sample.user) Sample.failed_rows initial in
  render_body st' = EmptyState ∧
  handleNewCast st' = navigate (lit "/step1") st' ∧
  popup_shown (handleNewCast st') = popup_shown initial.
Proof.
  apply (rows_failure_opens_gate Sample.user Sample.failed_rows initial).
  - simpl. exact I.
  - reflexivity.
Defined.

(** Opening and closing the prompt on the sample dashboard. *)
Lemma popup_round_trip_witness :
  let st := Sample.dashboard Sample.three_recorded in
  let opened := handleNewCast st in
  popup_shown opened = true ∧
  handleNewCast opened = opened ∧
  handleClosePricingPopup opened = st ∧
  upgrade_onClick opened = navigate (lit "/billing") st ∧
  popup_shown (upgrade_onClick opened) = false.
Proof.
  apply (popup_round_trip (Sample.dashboard Sample.three_recorded)).
  - reflexivity.
  - vm_compute. lia.
  - reflexivity.
Defined.

(** The sample row whose only file is on its second recording. *)
Lemma first_recording_only_witness :
  row_video_cell Sample.late_video_cast = NoVideo ∧
  view_disabled Sample.late_video_cast = true ∧
  click_video Sample.late_video_cast initial = initial.
Proof.
  apply (first_recording_only Sample.late_video_cast
           (Recording None) [Recording (Some (lit "videos/take2.webm"))]
           initial).
  - reflexivity.
  - left. reflexivity.
Defined.

End DashboardMore.

(** ** The script page: generation outcomes and user sessions *)

Module Step3More.

Import Step3.

Section Page.

Context {number : Type}.
Variable Number_toString : number → jsstring.
Variable TypeError_null : exn.
Variable invoke : list event → jsstring → invoke_result.
Variable parseFloat : jsstring → number.

#[local] Abbreviation generate := (generateIntroduction TypeError_null invoke).
#[local] Abbreviation page_mount := (mount TypeError_null invoke).
#[local] Abbreviation start := (handleStartRecording Number_toString).
#[local] Abbreviation do := (perform Number_toString TypeError_null invoke parseFloat).
#[local] Abbreviation do_all :=
  (perform_all Number_toString TypeError_null invoke parseFloat).

Lemma or_default_nonempty (x : option jsstring) (d : jsstring) :
  d ≠ [] → or_default x d ≠ [].
Proof.
  intros Hd. unfold or_default.
  destruct (truthy (of_nullable x)) eqn:Hx; [| done].
  apply JSFacts.truthy_of_nullable in Hx as (s & -> & Hs). done.
Qed.

Lemma msg_could_not_nonempty : msg_could_not ≠ [].
Proof. discriminate. Qed.

(** The generate action when the remote function answers with data. *)
Lemma generate_success (st : state number) (t d r : jsstring)
    (data : intro_data) :
  inputs st = Some (t, d, r) →
  invoke (trace st) (buildPrompt t d r) = Resolved (Some data) None →
  run generate st =
  let result := or_default (introduction data) msg_could_not in
  State result false false Null (teleprompterSpeed st)
    (<["teleprompterText" := result]> (localStorage st))
    (trace st ++ [Invoke (buildPrompt t d r); SetItem "teleprompterText" result]).
Proof.
  intros Hin Hans.
  rewrite (Step3Facts.generate_with_inputs TypeError_null invoke st t d r Hin).
  cbn zeta. rewrite Hans. done.
Qed.

(** The generate action when it fails, for want of inputs or remotely. *)
Lemma generate_failure (st : state number) :
  ¬ generate_succeeds invoke st →
  ∃ e tr,
    run generate st =
    State (teleprompterText st) false false (or_ (message e) (Str msg_went_wrong))
      (teleprompterSpeed st) (localStorage st) (trace st ++ tr).
Proof.
  intros Hno. destruct (inputs st) as [[[t d] r]|] eqn:Hin.
  - rewrite (Step3Facts.generate_with_inputs TypeError_null invoke st t d r Hin).
    cbn zeta.
    destruct (invoke (trace st) (buildPrompt t d r)) as [e | [data|] [m|]]
      eqn:Hans; eauto.
    exfalso. apply Hno. exists t, d, r, data. done.
  - rewrite (Step3Facts.generate_without_inputs TypeError_null invoke st Hin).
    exists (Error msg_missing), [ShowToast msg_failed (lit "error")]. done.
Qed.

Lemma classic_succeeds (st : state number) :
  generate_succeeds invoke st ∨ ¬ generate_succeeds invoke st.
Proof.
  destruct (inputs st) as [[[t d] r]|] eqn:Hin.
  - destruct (invoke (trace st) (buildPrompt t d r)) as [e | [data|] [m|]]
      eqn:Hans.
    + right. intros (t' & d' & r' & data' & Hin' & Hans').
      rewrite Hin in Hin'. injection Hin' as <- <- <-. congruence.
    + right. intros (t' & d' & r' & data' & Hin' & Hans').
      rewrite Hin in Hin'. injection Hin' as <- <- <-. congruence.
    + left. exists t, d, r, data. done.
    + right. intros (t' & d' & r' & data' & Hin' & Hans').
      rewrite Hin in Hin'. injection Hin' as <- <- <-. congruence.
    + right. intros (t' & d' & r' & data' & Hin' & Hans').
      rewrite Hin in Hin'. injection Hin' as <- <- <-. congruence.
  - right. intros (t' & d' & r' & data' & Hin' & _). congruence.
Qed.

(** [X9] A successful generation.  When the three inputs are stored and
    the remote function answers with data, the script shown is the
    returned introduction, or the sentence "Could not generate
    introduction." when none or an empty one came back; in either case it
    is not empty, it is the stored script, the error is cleared, and the
    trace grows by the call and the storage write. *)
Theorem generate_success_script (st : state number) (t d r : jsstring)
    (data : intro_data) :
  inputs st = Some (t, d, r) →
  invoke (trace st) (buildPrompt t d r) = Resolved (Some data) None →
  let st' := run generate st in
  (∀ s, introduction data = Some s → s ≠ [] → teleprompterText st' = s) ∧
  (introduction data = None ∨ introduction data = Some [] →
   teleprompterText st' = msg_could_not) ∧
  teleprompterText st' ≠ [] ∧
  stored_script st' = Some (teleprompterText st') ∧
  error st' = Null ∧
  trace st' = trace st ++ [Invoke (buildPrompt t d r);
                           SetItem "teleprompterText" (teleprompterText st')].
Proof.
  intros Hin Hans. cbn zeta. rewrite (generate_success st t d r data Hin Hans).
  cbn zeta. unfold stored_script. cbn [teleprompterText localStorage error trace].
  split_and!.
  - intros s -> Hs. unfold or_default. cbn [of_nullable].
    apply JSFacts.truthy_Str in Hs. rewrite Hs. done.
  - intros [-> | ->]; done.
  - apply or_default_nonempty, msg_could_not_nonempty.
  - apply lookup_insert_eq.
  - done.
  - done.
Qed.

(** [X10] The fallback sentence is treated as a script.  When the remote
    function answers without an introduction, the sentence "Could not
    generate introduction." becomes the script: the start-recording action
    then navigates to the recording view with it, and a later mount over
    the same storage reuses it without a new call. *)
Theorem fallback_is_a_script (st st2 : state number) (t d r : jsstring)
    (data : intro_data) :
  inputs st = Some (t, d, r) →
  invoke (trace st) (buildPrompt t d r) = Resolved (Some data) None →
  introduction data = None ∨ introduction data = Some [] →
  let st' := run generate st in
  localStorage st2 = localStorage st' →
  trace (run start st') =
    trace st' ++ [SetItem "teleprompterText" msg_could_not;
                  SetItem "teleprompterSpeed"
                    (Number_toString (teleprompterSpeed st));
                  Navigate (lit "/record")] ∧
  teleprompterText (run page_mount st2) = msg_could_not ∧
  trace (run page_mount st2) = trace st2.
Proof.
  intros Hin Hans Hintro. cbn zeta.
  rewrite (generate_success st t d r data Hin Hans). cbn zeta.
  assert (Hres : or_default (introduction data) msg_could_not = msg_could_not)
    by (destruct Hintro as [-> | ->]; done).
  rewrite Hres. intros Hstore. split.
  - rewrite Step3Facts.start_recording_run.
    cbn [teleprompterText teleprompterSpeed trace]. done.
  - assert (Hsaved : stored_script st2 = Some msg_could_not).
    { unfold stored_script. rewrite Hstore. cbn [localStorage].
      apply lookup_insert_eq. }
    rewrite (Step3Facts.mount_reuse TypeError_null invoke st2 msg_could_not
               Hsaved); [done |].
    unfold msg_could_not. rewrite Step3Facts.length_lit. cbn. lia.
Qed.

(** [X11] After the generate action.  Whatever the outcome, the page is
    no longer generating, so its controls are enabled again; the error box
    is shown exactly when the attempt did not succeed, so an error left by
    an earlier attempt is gone after a successful one. *)
Theorem generate_error_box (st : state number) :
  let st' := run generate st in
  isGenerating st' = false ∧
  isRewriting st' = false ∧
  (error_shown st' = false ↔ generate_succeeds invoke st) ∧
  (error_shown st' = true ↔ teleprompterText st' = teleprompterText st
                           ∧ localStorage st' = localStorage st
                           ∧ ¬ generate_succeeds invoke st).
Proof.
  cbn zeta. unfold error_shown.
  assert (Hshown : ∀ e, truthy (or_ (message e) (Str msg_went_wrong)) = true).
  { intros e. unfold or_. destruct (truthy (message e)) eqn:He; done. }
  destruct (classic_succeeds st) as [Hok | Hno].
  - destruct Hok as (t & d & r & data & Hin & Hans).
    rewrite (generate_success st t d r data Hin Hans). cbn.
    split_and!; try done.
    + split; [| done]. intros _. exists t, d, r, data. done.
    + split; [done |]. intros (_ & _ & Hno). exfalso. apply Hno.
      exists t, d, r, data. done.
  - destruct (generate_failure st Hno) as (e & tr & ->).
    cbn [isGenerating isRewriting error teleprompterText localStorage].
    rewrite Hshown. split_and!; try done.
Qed.

(** *** User sessions *)

Lemma generate_not_generating (st : state number) :
  isGenerating (run generate st) = false.
Proof.
  destruct (classic_succeeds st) as [(t & d & r & data & Hin & Hans) | Hno].
  - rewrite (generate_success st t d r data Hin Hans). done.
  - destruct (generate_failure st Hno) as (e & tr & ->). done.
Qed.

Lemma generate_storage (st : state number) (k : string) :
  k ≠ "teleprompterText" →
  localStorage (run generate st) !! k = localStorage st !! k.
Proof.
  intros Hk.
  destruct (classic_succeeds st) as [(t & d & r & data & Hin & Hans) | Hno].
  - rewrite (generate_success st t d r data Hin Hans). cbn.
    by rewrite lookup_insert_ne.
  - destruct (generate_failure st Hno) as (e & tr & ->). done.
Qed.

Lemma generate_synced (st : state number) :
  synced st → synced (run generate st).
Proof.
  unfold synced, stored_script. intros Hsync.
  destruct (classic_succeeds st) as [(t & d & r & data & Hin & Hans) | Hno].
  - rewrite (generate_success st t d r data Hin Hans). cbn.
    apply lookup_insert_eq.
  - destruct (generate_failure st Hno) as (e & tr & ->). done.
Qed.

Lemma generate_invocations (st : state number) :
  invocations (trace (run generate st)) =
  invocations (trace st) ++
  match inputs st with
  | Some (t, d, r) => [buildPrompt t d r]
  | None => []
  end.
Proof.
  destruct (inputs st) as [[[t d] r]|] eqn:Hin.
  - rewrite (Step3Facts.generate_with_inputs TypeError_null invoke st t d r Hin).
    cbn zeta.
    destruct (invoke (trace st) (buildPrompt t d r)) as [e | [data|] [m|]];
      cbn [trace]; rewrite Step3Facts.invocations_app; done.
  - rewrite (Step3Facts.generate_without_inputs TypeError_null invoke st Hin).
    cbn [trace]. rewrite Step3Facts.invocations_app. cbn.
    by rewrite app_nil_r.
Qed.

Lemma inputs_same (st1 st2 : state number) :
  (∀ k, k ≠ "teleprompterText" → k ≠ "teleprompterSpeed" →
        localStorage st2 !! k = localStorage st1 !! k) →
  inputs st2 = inputs st1.
Proof.
  intros Hsame. unfold inputs. rewrite !Hsame by done. done.
Qed.

(** One user action: the keys it leaves alone, the flag it keeps, the
    calls it makes. *)
Lemma perform_storage (a : action) (st : state number) (k : string) :
  k ≠ "teleprompterText" → k ≠ "teleprompterSpeed" →
  localStorage (do a st) !! k = localStorage st !! k.
Proof.
  intros Hk1 Hk2. destruct a as [| v | v | |]; unfold perform.
  - destruct (regenerate_disabled st); [done |]. by apply generate_storage.
  - destruct (textarea_disabled st); [done |].
    rewrite Step3Facts.handleTextChange_run. cbn. by rewrite lookup_insert_ne.
  - done.
  - destruct (start_disabled st); [done |].
    rewrite Step3Facts.start_recording_run.
    destruct (negb (truthy (Str (teleprompterText st)))
              || includes (teleprompterText st) (lit "Please go back"));
      [done |].
    cbn. by rewrite !lookup_insert_ne.
  - done.
Qed.

Lemma perform_not_generating (a : action) (st : state number) :
  isGenerating st = false → isGenerating (do a st) = false.
Proof.
  intros Hidle. destruct a as [| v | v | |]; unfold perform,
    regenerate_disabled, textarea_disabled, start_disabled; rewrite ?Hidle.
  - apply generate_not_generating.
  - done.
  - done.
  - cbn [orb]. destruct (negb (truthy (Str (teleprompterText st)))); [done |].
    rewrite Step3Facts.start_recording_run.
    destruct (negb (truthy (Str (teleprompterText st)))
              || includes (teleprompterText st) (lit "Please go back")); done.
  - done.
Qed.

Lemma perform_invocations (a : action) (st : state number) :
  isGenerating st = false →
  invocations (trace (do a st)) =
  invocations (trace st) ++
  match a, inputs st with
  | Regenerate, Some (t, d, r) => [buildPrompt t d r]
  | _, _ => []
  end.
Proof.
  intros Hidle. destruct a as [| v | v | |]; unfold perform,
    regenerate_disabled, textarea_disabled, start_disabled; rewrite ?Hidle.
  - rewrite generate_invocations. by destruct (inputs st) as [[[t d] r]|].
  - rewrite Step3Facts.handleTextChange_run. cbn [trace].
    rewrite Step3Facts.invocations_app. done.
  - by rewrite app_nil_r.
  - cbn [orb]. destruct (negb (truthy (Str (teleprompterText st))));
      [by rewrite app_nil_r |].
    rewrite Step3Facts.start_recording_run.
    destruct (negb (truthy (Str (teleprompterText st)))
              || includes (teleprompterText st) (lit "Please go back"));
      cbn [trace]; rewrite Step3Facts.invocations_app; done.
  - cbn. rewrite Step3Facts.invocations_app. done.
Qed.

Lemma perform_synced (a : action) (st : state number) :
  synced st → synced (do a st).
Proof.
  intros Hsync. destruct a as [| v | v | |]; unfold perform.
  - destruct (regenerate_disabled st); [done |]. by apply generate_synced.
  - destruct (textarea_disabled st); [done |].
    rewrite Step3Facts.handleTextChange_run. unfold synced, stored_script. cbn.
    apply lookup_insert_eq.
  - done.
  - destruct (start_disabled st); [done |].
    rewrite Step3Facts.start_recording_run.
    destruct (negb (truthy (Str (teleprompterText st)))
              || includes (teleprompterText st) (lit "Please go back"));
      [done |].
    unfold synced, stored_script. cbn.
    rewrite lookup_insert_ne by done. apply lookup_insert_eq.
  - done.
Qed.

Lemma perform_all_cons (a : action) (acts : list action) (st : state number) :
  do_all (a :: acts) st = do_all acts (do a st).
Proof. reflexivity. Qed.

(** [X12] The page never touches its inputs.  Through any sequence of
    user actions (regenerate, edit, speed change, start recording, logout)
    the page writes no storage key other than the script and the speed:
    every other key keeps its value, and so the three inputs of the
    generate action stay what they were. *)
Theorem session_keeps_inputs (acts : list action) (st : state number) :
  (∀ k, k ≠ "teleprompterText" → k ≠ "teleprompterSpeed" →
        localStorage (do_all acts st) !! k = localStorage st !! k) ∧
  inputs (do_all acts st) = inputs st.
Proof.
  assert (Hkeys : ∀ k, k ≠ "teleprompterText" → k ≠ "teleprompterSpeed" →
            localStorage (do_all acts st) !! k = localStorage st !! k).
  { revert st. induction acts as [|a acts IH]; intros st k Hk1 Hk2; [done |].
    rewrite perform_all_cons, IH by done. by apply perform_storage. }
  split; [exact Hkeys |]. by apply inputs_same.
Qed.

(** [X13] One call per regeneration, always with the same prompt.  From
    a page that is not generating, a sequence of user actions makes
    exactly one call of the remote function for each click on
    "Regenerate" when the three inputs are stored, each with the prompt
    built from them, and no call at all when an input is missing. *)
Theorem session_invocations (acts : list action) (st : state number) :
  isGenerating st = false →
  invocations (trace (do_all acts st)) =
  invocations (trace st) ++
  match inputs st with
  | Some (t, d, r) => replicate (regenerations acts) (buildPrompt t d r)
  | None => []
  end.
Proof.
  revert st. induction acts as [|a acts IH]; intros st Hidle.
  - cbn. destruct (inputs st) as [[[t d] r]|]; by rewrite app_nil_r.
  - rewrite perform_all_cons, IH by (by apply perform_not_generating).
    rewrite perform_invocations by done.
    assert (Hin : inputs (do a st) = inputs st).
    { apply inputs_same. intros k Hk1 Hk2. by apply perform_storage. }
    rewrite Hin, <- app_assoc. f_equal. unfold regenerations.
    rewrite filter_cons.
    destruct a as [| v | v | |], (inputs st) as [[[t d] r]|]; done.
Qed.

(** [X14] The stored script follows the screen.  Once the stored script
    is the text on screen, it stays so through every sequence of user
    actions: regenerating (whether it succeeds or fails), editing,
    changing the speed, starting to record and logging out. *)
Theorem session_keeps_sync (acts : list action) (st : state number) :
  synced st → synced (do_all acts st).
Proof.
  revert st. induction acts as [|a acts IH]; intros st Hsync; [done |].
  rewrite perform_all_cons. by apply IH, perform_synced.
Qed.

(** [X15] An edit and the next visit.  After an edit, a later mount over
    the storage the edit left reuses the edited script, without a call,
    when it is longer than 10 code units.  A shorter edit is not kept: the
    page regenerates when a non-empty job title is stored (and a script
    that comes back replaces the stored edit), and shows the placeholder
    otherwise. *)
Theorem edit_then_mount (v : jsstring) (st st2 : state number) :
  localStorage st2 = localStorage (run (handleTextChange v) st) →
  let st3 := run page_mount st2 in
  (10 < length v →
   teleprompterText st3 = v ∧ trace st3 = trace st2 ∧
   stored_script st3 = Some v) ∧
  (length v ≤ 10 →
   (truthy (of_nullable (localStorage st2 !! "careercast_jobTitle")) = true →
    st3 = run generate st2 ∧
    (generate_succeeds invoke st2 →
     stored_script st3 = Some (teleprompterText st3) ∧
     teleprompterText st3 ≠ [])) ∧
   (truthy (of_nullable (localStorage st2 !! "careercast_jobTitle")) = false →
    teleprompterText st3 = msg_placeholder ∧ stored_script st3 = Some v)).
Proof.
  intros Hstore. cbn zeta.
  assert (Hsaved : stored_script st2 = Some v).
  { unfold stored_script. rewrite Hstore, Step3Facts.handleTextChange_run.
    cbn. apply lookup_insert_eq. }
  split.
  - intros Hlen.
    rewrite (Step3Facts.mount_reuse TypeError_null invoke st2 v Hsaved Hlen).
    done.
  - intros Hlen.
    rewrite (Step3Facts.mount_no_reuse TypeError_null invoke st2); cycle 1.
    { intros s Hs. rewrite Hsaved in Hs. injection Hs as <-. done. }
    split.
    + intros ->. split; [done |].
      intros (t & d & r & data & Hin & Hans).
      rewrite (generate_success st2 t d r data Hin Hans). cbn zeta.
      unfold stored_script. cbn. rewrite lookup_insert_eq.
      split; [done |]. apply or_default_nonempty, msg_could_not_nonempty.
    + intros ->. done.
Qed.

(** [X16] The "Start Recording" button.  A click navigates to the
    recording view exactly when the page is not generating and the text is
    non-empty and without "Please go back"; while generating, or on an
    empty text, the button is disabled and the click changes nothing; on a
    text with "Please go back", the placeholder for one, the button is
    enabled and the click only shows the warning. *)
Theorem start_button (st : state number) :
  let st' := do StartRecording st in
  let recording :=
    [SetItem "teleprompterText" (teleprompterText st);
     SetItem "teleprompterSpeed" (Number_toString (teleprompterSpeed st));
     Navigate (lit "/record")] in
  (trace st' = trace st ++ recording ↔
   isGenerating st = false ∧ teleprompterText st ≠ [] ∧
   ¬ substring_of (lit "Please go back") (teleprompterText st)) ∧
  (st' = st ↔ isGenerating st = true ∨ teleprompterText st = []) ∧
  (trace st' = trace st ++ [ShowToast msg_wait (lit "warning")] ↔
   isGenerating st = false ∧
   substring_of (lit "Please go back") (teleprompterText st)) ∧
  start_disabled (State msg_placeholder false (isRewriting st) (error st)
                    (teleprompterSpeed st) (localStorage st) (trace st))
  = false.
Proof.
  cbn zeta. unfold perform, start_disabled.
  pose proof (Step3Facts.start_recording_allowed (teleprompterText st))
    as Hallowed.
  pose proof (JSFacts.truthy_Str (teleprompterText st)) as Htext.
  pose proof (JSFacts.includes_spec (teleprompterText st)
                (lit "Please go back")) as Hinc.
  assert (Hgrow : ∀ l : list event, l ≠ [] → trace st ≠ trace st ++ l).
  { intros l Hl H. apply Hl. apply (f_equal length) in H.
    rewrite length_app in H. destruct l; [done | cbn in H; lia]. }
  destruct (isGenerating st); cbn [orb].
  { split_and!; [| | | done].
    - split; [| intros [? _]; done]. intros H. by apply Hgrow in H.
    - split; [by left | done].
    - split; [| intros [? _]; done]. intros H. by apply Hgrow in H. }
  destruct (truthy (Str (teleprompterText st))) eqn:Htruthy; cbn [negb];
    cycle 1.
  { assert (Hempty : teleprompterText st = []).
    { destruct (teleprompterText st); [done |]. discriminate. }
    split_and!; [| | | done].
    - split; [| intros (_ & ? & _); done]. intros H. by apply Hgrow in H.
    - split; [by right | done].
    - split; [intros H; by apply Hgrow in H |].
      intros [_ (pre & post & H)]. rewrite Hempty in H.
      symmetry in H. apply app_eq_nil in H as [_ H].
      apply app_eq_nil in H as [H _]. discriminate. }
  assert (Hne : teleprompterText st ≠ []) by (by apply Htext).
  rewrite Step3Facts.start_recording_run. rewrite Htruthy. cbn [negb orb].
  destruct (includes (teleprompterText st) (lit "Please go back")) eqn:Hsent.
  - assert (Hsub : substring_of (lit "Please go back") (teleprompterText st))
      by (by apply Hinc).
    cbn [trace]. split_and!; [| | | done].
    + split; [| intros (_ & _ & ?); done].
      intros H. apply app_inv_head in H. discriminate.
    + split; [| intros [? | ?]; done].
      intros H. apply (f_equal trace) in H. cbn [trace] in H.
      symmetry in H. by apply Hgrow in H.
    + split; done.
  - assert (Hsub : ¬ substring_of (lit "Please go back") (teleprompterText st)).
    { intros H. apply Hinc in H. congruence. }
    cbn [trace]. split_and!; [| | | done].
    + split; done.
    + split; [| intros [? | ?]; done].
      intros H. apply (f_equal trace) in H. cbn [trace] in H.
      symmetry in H. by apply Hgrow in H.
    + split; [| intros [_ ?]; done].
      intros H. apply app_inv_head in H. discriminate.
Qed.

(** [X17] The speed is stored only when recording starts.  A change of
    the speed slider writes nothing to local storage and adds nothing to
    the trace; a sequence of user actions without a start of recording
    leaves the stored speed as it was; and when recording starts right
    after a speed change, the stored speed is the string of the chosen
    one. *)
Theorem speed_stored_on_start (acts : list action) (v : jsstring)
    (st : state number) :
  StartRecording ∉ acts →
  localStorage (do_all acts st) !! "teleprompterSpeed"
  = localStorage st !! "teleprompterSpeed" ∧
  localStorage (do (SpeedChange v) st) = localStorage st ∧
  trace (do (SpeedChange v) st) = trace st ∧
  (isGenerating st = false → teleprompterText st ≠ [] →
   ¬ substring_of (lit "Please go back") (teleprompterText st) →
   localStorage (do StartRecording (do (SpeedChange v) st))
     !! "teleprompterSpeed" = Some (Number_toString (parseFloat v))).
Proof.
  intros Hnostart. split_and!; [| done | done |].
  - revert st. induction acts as [|a acts IH]; intros st; [done |].
    apply not_elem_of_cons in Hnostart as [Ha Hacts].
    rewrite perform_all_cons, IH by done.
    destruct a as [| w | w | |]; unfold perform; try done.
    + destruct (regenerate_disabled st); [done |]. by apply generate_storage.
    + destruct (textarea_disabled st); [done |].
      rewrite Step3Facts.handleTextChange_run. cbn.
      by rewrite lookup_insert_ne.
  - intros Hidle Hne Hsub. unfold perform at 1. unfold start_disabled.
    change (isGenerating (do (SpeedChange v) st)) with (isGenerating st).
    change (teleprompterText (do (SpeedChange v) st))
      with (teleprompterText st).
    apply JSFacts.truthy_Str in Hne. rewrite Hidle, Hne. cbn [negb orb].
    rewrite Step3Facts.start_recording_run.
    change (teleprompterText (do (SpeedChange v) st))
      with (teleprompterText st).
    apply JSFacts.includes_false in Hsub. rewrite Hne, Hsub. cbn [negb orb].
    cbn. apply lookup_insert_eq.
Qed.

End Page.

(** A successful generation on the sample page. *)
Lemma generate_success_script_witness :
  let st := Sample.page Sample.full_storage in
  let st' := run (generateIntroduction Sample.TypeError_null
                    Sample.working_invoke) st in
  teleprompterText st' = lit "Hello, I am a nurse." ∧
  stored_script st' = Some (teleprompterText st') ∧
  error st' = Null.
Proof.
  pose proof (generate_success_script Sample.TypeError_null
                Sample.working_invoke (Sample.page Sample.full_storage)
                (lit "Nurse") (lit "Care for patients") (lit "RN, five years")
                (IntroData (Some (lit "Hello, I am a nurse.")))) as H.
  destruct H as (Hintro & _ & _ & Hstored & Herror & _).
  - vm_compute. reflexivity.
  - reflexivity.
  - split; [| split; assumption].
    apply Hintro; [reflexivity | discriminate].
Defined.

(** The fallback sentence on the sample page. *)
Lemma fallback_is_a_script_witness :
  let st := Sample.page Sample.full_storage in
  let st' := run (generateIntroduction Sample.TypeError_null
                    Sample.silent_invoke) st in
  trace (run (handleStartRecording Sample.Number_toString) st') =
    trace st' ++ [SetItem "teleprompterText" msg_could_not;
                  SetItem "teleprompterSpeed" (lit "1");
                  Navigate (lit "/record")] ∧
  teleprompterText (run (mount Sample.TypeError_null Sample.silent_invoke) st')
  = msg_could_not ∧
  trace (run (mount Sample.TypeError_null Sample.silent_invoke) st') = trace st'.
Proof.
  refine (fallback_is_a_script Sample.Number_toString Sample.TypeError_null
            Sample.silent_invoke (Sample.page Sample.full_storage) _
            (lit "Nurse") (lit "Care for patients") (lit "RN, five years")
            (IntroData None) _ _ _ eq_refl).
  - vm_compute. reflexivity.
  - reflexivity.
  - left. reflexivity.
Defined.

(** Two regenerations and an edit on the sample page: two calls. *)
Lemma session_invocations_witness :
  let st := Sample.page Sample.full_storage in
  let prompt :=
    buildPrompt (lit "Nurse") (lit "Care for patients") (lit "RN, five years") in
  invocations
    (trace (perform_all Sample.Number_toString Sample.TypeError_null
              Sample.working_invoke Sample.parseFloat
              [Regenerate; Edit (lit "Hi"); Regenerate] st))
  = [prompt; prompt].
Proof.
  pose proof (session_invocations Sample.Number_toString Sample.TypeError_null
                Sample.working_invoke Sample.parseFloat
                [Regenerate; Edit (lit "Hi"); Regenerate]
                (Sample.page Sample.full_storage) eq_refl) as H.
  cbv zeta. rewrite H. vm_compute. reflexivity.
Defined.

(** A synced sample page stays synced through a session. *)
Lemma session_keeps_sync_witness :
  let st :=
    State (lit "Hello") false false Null tt
      (<["teleprompterText" := lit "Hello"]> Sample.full_storage) [] in
  synced st ∧
  synced (perform_all Sample.Number_toString Sample.TypeError_null
            Sample.failing_invoke Sample.parseFloat
            [Edit (lit "Hello again"); Regenerate; StartRecording] st).
Proof.
  cbv zeta.
  assert (Hsync : synced
            (State (lit "Hello") false false Null tt
               (<["teleprompterText" := lit "Hello"]> Sample.full_storage) []))
    by (vm_compute; reflexivity).
  split; [exact Hsync |].
  exact (session_keeps_sync Sample.Number_toString Sample.TypeError_null
           Sample.failing_invoke Sample.parseFloat
           [Edit (lit "Hello again"); Regenerate; StartRecording] _ Hsync).
Defined.

(** An edit of 12 code units is there at the next visit. *)
Lemma edit_then_mount_witness :
  let st2 := run (handleTextChange (lit "Hello there!"))
               (Sample.page Sample.full_storage) in
  let st3 := run (mount Sample.TypeError_null Sample.working_invoke) st2 in
  teleprompterText st3 = lit "Hello there!" ∧ trace st3 = trace st2 ∧
  stored_script st3 = Some (lit "Hello there!").
Proof.
  apply (edit_then_mount Sample.TypeError_null Sample.working_invoke
           (lit "Hello there!") (Sample.page Sample.full_storage)
           (run (handleTextChange (lit "Hello there!"))
              (Sample.page Sample.full_storage))).
  - reflexivity.
  - vm_compute. lia.
Defined.

(** A speed change and a regeneration store no speed. *)
Lemma speed_stored_on_start_witness :
  let st := Sample.page Sample.full_storage in
  localStorage
    (perform_all Sample.Number_toString Sample.TypeError_null
       Sample.working_invoke Sample.parseFloat
       [SpeedChange (lit "1.5"); Regenerate] st) !! "teleprompterSpeed"
  = localStorage st !! "teleprompterSpeed".
Proof.
  apply (speed_stored_on_start Sample.Number_toString Sample.TypeError_null
           Sample.working_invoke Sample.parseFloat
           [SpeedChange (lit "1.5"); Regenerate] (lit "1.5")
           (Sample.page Sample.full_storage)).
  intros H. apply elem_of_cons in H as [H | H]; [discriminate |].
  apply elem_of_cons in H as [H | H]; [discriminate |].
  by apply elem_of_nil in H.
Defined.

End Step3More.
